(* Shallow embedding of the trading engine of varunsh17/Golang_Testing_Engine:
   internal/orderbook, internal/broker, internal/strategy, internal/feed and the
   session pipeline of main.go.

   Modelling choices:
   - Go's float64 prices and quantities are modelled as exact rationals (Q);
     rounding is not modelled.
   - The OrderBook methods (pointer receivers guarded by the RWMutex) run in a
     small state monad over the book: Update writes it, the queries read it.
   - A buffered Go channel is a FIFO buffer with a capacity; a
     `select { case c <- x: ... default: ... }` send is [try_send]. *)

From Stdlib Require Import PeanoNat ZArith QArith Qminmax Lqa List Sorted Permutation Bool Lia.
Import ListNotations.
Open Scope Q_scope.

(** Go's [<] on prices and quantities. *)
Definition Qltb (x y : Q) : bool := negb (Qle_bool y x).

(* ------------------------------------------------------------------ *)
(** * internal/types *)

Inductive Side := SideBuy | SideSell.

Definition Side_eqb (a b : Side) : bool :=
  match a, b with
  | SideBuy, SideBuy | SideSell, SideSell => true
  | _, _ => false
  end.

Record OrderBookEntry := { Price : Q; Quantity : Q }.

Record OrderBookSnapshot := {
  snapSymbol : nat;      (* symbol string, kept abstract *)
  snapTimestamp : nat;   (* time.Time, kept abstract *)
  Bids : list OrderBookEntry;
  Asks : list OrderBookEntry }.

Record TradeSignal := {
  sigSymbol : nat;
  sigSide : Side;
  sigPrice : Q;          (* 0 means market order *)
  sigQuantity : Q;
  sigTimestamp : nat }.

Record Execution := {
  exSymbol : nat;
  exSide : Side;
  exPrice : Q;
  exQuantity : Q;
  exTimestamp : nat }.

(* ------------------------------------------------------------------ *)
(** * internal/orderbook *)

Record OrderBook := {
  symbol : nat;
  bids : list OrderBookEntry;   (* sorted descending by price *)
  asks : list OrderBookEntry;   (* sorted ascending by price *)
  lastUpdated : nat }.

(** [New()] *)
Definition New : OrderBook :=
  {| symbol := 0; bids := []; asks := []; lastUpdated := 0 |}.

(** The state monad the methods of [*OrderBook] run in. *)
Definition BookM (A : Type) : Type := OrderBook -> A * OrderBook.

Definition ret {A} (a : A) : BookM A := fun ob => (a, ob).
Definition bind {A B} (m : BookM A) (k : A -> BookM B) : BookM B :=
  fun ob => let (a, ob') := m ob in k a ob'.
Definition get : BookM OrderBook := fun ob => (ob, ob).
Definition put (ob : OrderBook) : BookM unit := fun _ => (tt, ob).

Notation "x <- m ;; k" := (bind m (fun x => k))
  (at level 61, m at next level, right associativity).

(** Go's [sort.Slice] on slices of at most 12 elements runs the library's
    insertion sort: for each i, element i is swapped leftwards while
    [less(data[j], data[j-1])].  The sorted prefix is kept reversed, so its
    head is [data[j-1]].  Longer slices are sorted by pdqsort instead, which
    is not modelled: it yields the same prices in the same order but may
    order levels of equal price differently.  The results below that hold at
    every length use only what both algorithms guarantee, that the result is
    a sorted permutation of the input ([sort_slice_spec]). *)
Fixpoint insert_rev {A} (less : A -> A -> bool) (x : A) (rp : list A) : list A :=
  match rp with
  | [] => [x]
  | y :: ys => if less x y then y :: insert_rev less x ys else x :: y :: ys
  end.

Definition sort_slice {A} (less : A -> A -> bool) (l : list A) : list A :=
  rev (fold_left (fun rp x => insert_rev less x rp) l []).

Definition bid_less (a b : OrderBookEntry) : bool := Qltb (Price b) (Price a).
Definition ask_less (a b : OrderBookEntry) : bool := Qltb (Price a) (Price b).

(** [Update(snapshot)] as a pure function of the snapshot ... *)
Definition update_book (snapshot : OrderBookSnapshot) : OrderBook :=
  {| symbol := snapSymbol snapshot;
     lastUpdated := snapTimestamp snapshot;
     bids := sort_slice bid_less (Bids snapshot);
     asks := sort_slice ask_less (Asks snapshot) |}.

(** ... and as the method, which overwrites the book. *)
Definition Update (snapshot : OrderBookSnapshot) : BookM unit :=
  put (update_book snapshot).

(** [GetCumulativeDepth(side, priceLevel)] *)
Definition cumulative_depth (ob : OrderBook) (side : Side) (priceLevel : Q) : Q :=
  match side with
  | SideBuy =>
      fold_left (fun depth bid =>
        if Qle_bool priceLevel (Price bid) then depth + Quantity bid else depth)
        (bids ob) 0
  | SideSell =>
      fold_left (fun depth ask =>
        if Qle_bool (Price ask) priceLevel then depth + Quantity ask else depth)
        (asks ob) 0
  end.

Definition GetCumulativeDepth (side : Side) (priceLevel : Q) : BookM Q :=
  ob <- get ;; ret (cumulative_depth ob side priceLevel).

(** The loops of [CanFill]: accumulate the levels passing the price test,
    return true as soon as the accumulated quantity reaches [quantity]. *)
Fixpoint can_fill_loop (ok : OrderBookEntry -> bool) (quantity availableQty : Q)
    (levels : list OrderBookEntry) : bool :=
  match levels with
  | [] => false
  | l :: rest =>
      if ok l then
        let availableQty' := availableQty + Quantity l in
        if Qle_bool quantity availableQty' then true
        else can_fill_loop ok quantity availableQty' rest
      else can_fill_loop ok quantity availableQty rest
  end.

(** [CanFill(side, price, quantity)]: a Buy walks the asks, a Sell the bids. *)
Definition can_fill (ob : OrderBook) (side : Side) (price quantity : Q) : bool :=
  match side with
  | SideBuy => can_fill_loop (fun ask => Qle_bool (Price ask) price) quantity 0 (asks ob)
  | SideSell => can_fill_loop (fun bid => Qle_bool price (Price bid)) quantity 0 (bids ob)
  end.

Definition CanFill (side : Side) (price quantity : Q) : BookM bool :=
  ob <- get ;; ret (can_fill ob side price quantity).

(** The loops of [GetFillPrice]: returns (remainingQty, totalCost). *)
Fixpoint fill_loop (levels : list OrderBookEntry) (remainingQty totalCost : Q) : Q * Q :=
  match levels with
  | [] => (remainingQty, totalCost)
  | l :: rest =>
      if Qle_bool remainingQty 0 then (remainingQty, totalCost)   (* break *)
      else
        let fillQty := if Qltb remainingQty (Quantity l) then remainingQty
                       else Quantity l in
        fill_loop rest (remainingQty - fillQty) (totalCost + fillQty * Price l)
  end.

(** [GetFillPrice(side, quantity)] *)
Definition get_fill_price (ob : OrderBook) (side : Side) (quantity : Q) : Q * bool :=
  let levels := match side with SideBuy => asks ob | SideSell => bids ob end in
  let (remainingQty, totalCost) := fill_loop levels quantity 0 in
  if Qltb 0 remainingQty then (0, false)
  else (totalCost / quantity, true).

Definition GetFillPrice (side : Side) (quantity : Q) : BookM (Q * bool) :=
  ob <- get ;; ret (get_fill_price ob side quantity).

(* ------------------------------------------------------------------ *)
(** * internal/broker *)

(** [executeOrder(signal)]; [now] stands for [time.Now()]. *)
Definition executeOrder (now : nat) (signal : TradeSignal) : BookM (option Execution) :=
  let mk price := Some {| exSymbol := sigSymbol signal; exSide := sigSide signal;
                          exPrice := price; exQuantity := sigQuantity signal;
                          exTimestamp := now |} in
  if Qeq_bool (sigPrice signal) 0 then
    r <- GetFillPrice (sigSide signal) (sigQuantity signal) ;;
    let (execPrice, canFill) := r in
    if negb canFill then ret None else ret (mk execPrice)
  else
    canFill <- CanFill (sigSide signal) (sigPrice signal) (sigQuantity signal) ;;
    if canFill then ret (mk (sigPrice signal))
    else
      r <- GetFillPrice (sigSide signal) (sigQuantity signal) ;;
      let (bestPrice, canFillAtBest) := r in
      if canFillAtBest then ret (mk bestPrice) else ret None.

(* ------------------------------------------------------------------ *)
(** * Buffered channels *)

Record Chan (A : Type) := { buf : list A; cap : nat }.
Arguments buf {A}.
Arguments cap {A}.
Arguments Build_Chan {A}.

(** [select { case c <- x: ... default: ... }]: enqueue when there is room,
    otherwise drop [x]; the boolean tells which branch ran. *)
Definition try_send {A} (c : Chan A) (x : A) : Chan A * bool :=
  if Nat.ltb (length (buf c)) (cap c)
  then (Build_Chan (buf c ++ [x]) (cap c), true)
  else (c, false).

(** * Broker.Start: the body of [for signal := range b.signals] *)
Definition broker_handle (now : nat) (signal : TradeSignal) (executions : Chan Execution)
    : BookM (Chan Execution) :=
  execution <- executeOrder now signal ;;
  match execution with
  | None => ret executions
  | Some e => ret (fst (try_send executions e))
  end.

(* ------------------------------------------------------------------ *)
(** * internal/strategy *)

Record StrategyConfig := {
  EntryPrice : Q;
  OrderSize : Q;
  StopLoss : Q;
  TakeProfit : Q;
  LiquidityThresh : Q;
  MaxHoldTime : nat }.

(** The symbol "BTCUSD" the strategy hard-codes. *)
Definition BTCUSD : nat := 1.

(** The entry signal built by [Strategy.Start] after its settle delay. *)
Definition entry_signal (config : StrategyConfig) (now : nat) : TradeSignal :=
  if Qeq_bool (EntryPrice config) 0 then
    {| sigSymbol := BTCUSD; sigSide := SideBuy; sigPrice := 0;
       sigQuantity := OrderSize config; sigTimestamp := now |}
  else
    {| sigSymbol := BTCUSD; sigSide := SideBuy; sigPrice := EntryPrice config;
       sigQuantity := OrderSize config; sigTimestamp := now |}.

(** [Strategy.Start] sends its entry signal with a select/default. *)
Definition strategy_entry (config : StrategyConfig) (now : nat)
    (signals : Chan TradeSignal) : Chan TradeSignal :=
  fst (try_send signals (entry_signal config now)).

Record Position := {
  posSymbol : nat;
  posQuantity : Q;
  posEntryPrice : Q;
  posEntryTime : nat }.

(** The signal each exit watcher of [scheduleExitSignals] builds. *)
Definition exit_signal (position : Position) (now : nat) : TradeSignal :=
  {| sigSymbol := posSymbol position; sigSide := SideSell; sigPrice := 0;
     sigQuantity := posQuantity position; sigTimestamp := now |}.

(** A watcher that fires: if a position is open, send with select/default. *)
Definition exit_watcher_fire (position : option Position) (now : nat)
    (signals : Chan TradeSignal) : Chan TradeSignal :=
  match position with
  | None => signals
  | Some p => fst (try_send signals (exit_signal p now))
  end.

(** [handleExecutions]: the position update for one execution. *)
Definition handle_execution (position : option Position) (e : Execution)
    : option Position :=
  match position, exSide e with
  | None, SideBuy =>
      Some {| posSymbol := exSymbol e; posQuantity := exQuantity e;
              posEntryPrice := exPrice e; posEntryTime := exTimestamp e |}
  | Some _, SideSell => None
  | _, _ => position
  end.

(* ------------------------------------------------------------------ *)
(** * internal/feed and internal/engine *)

(** The outcome of [loadData]. *)
Inductive FeedData := Loaded (snapshots : list OrderBookSnapshot) | LoadError.

(** The snapshots [Feed.Start] publishes: none when loading fails (it closes
    the channel and returns). *)
Definition feed_snapshots (fd : FeedData) : list OrderBookSnapshot :=
  match fd with Loaded s => s | LoadError => [] end.

(** One publication of [Feed.Start]: select/default on the intake channel. *)
Definition feed_publish (updates : Chan OrderBookSnapshot) (snapshot : OrderBookSnapshot)
    : Chan OrderBookSnapshot :=
  fst (try_send updates snapshot).

(** [Engine.Start]: [Update] for every received snapshot. *)
Fixpoint engine_apply (received : list OrderBookSnapshot) : BookM unit :=
  match received with
  | [] => ret tt
  | s :: rest => _ <- Update s ;; engine_apply rest
  end.

(** The book once the engine has applied the first [k] received snapshots. *)
Definition book_after (received : list OrderBookSnapshot) (k : nat) : OrderBook :=
  snd (engine_apply (firstn k received) New).

(* ------------------------------------------------------------------ *)
(** * main.go: one trading session *)

(** One interleaving of the session's goroutines, as seen by the broker:
    [entry_at] is [None] when the entry signal was dropped, otherwise the
    number of received snapshots the engine had applied when the broker
    executed it; [exits_at] lists, for each exit signal that reached the
    broker while the position was open, the same number. *)
Record Schedule := {
  received : list bool;        (* per feed snapshot: did the intake send succeed *)
  entry_at : option nat;
  exits_at : list nat }.

Fixpoint received_snapshots (snaps : list OrderBookSnapshot) (ok : list bool)
    : list OrderBookSnapshot :=
  match snaps, ok with
  | s :: rest, b :: ok' => if b then s :: received_snapshots rest ok'
                           else received_snapshots rest ok'
  | s :: rest, [] => s :: received_snapshots rest []
  | [], _ => []
  end.

(** The collector's forward of each execution to the strategy's inbox:
    select/default. *)
Definition collector_forward (strategyExecutions : Chan Execution) (e : Execution)
    : Chan Execution :=
  fst (try_send strategyExecutions e).

(** The [tradeLog] the execution collector accumulates. *)
Definition session_trade_log (config : StrategyConfig) (fd : FeedData) (sch : Schedule)
    : list Execution :=
  let recv := received_snapshots (feed_snapshots fd) (received sch) in
  match entry_at sch with
  | None => []
  | Some k =>
      match fst (executeOrder 0 (entry_signal config 0) (book_after recv k)) with
      | None => []
      | Some buy =>
          match handle_execution None buy with
          | None => [buy]
          | Some position =>
              buy :: flat_map (fun j =>
                       match fst (executeOrder (S j) (exit_signal position (S j))
                                    (book_after recv j)) with
                       | Some e => [e]
                       | None => []
                       end) (exits_at sch)
          end
      end
  end.

Record SessionResults := {
  TradeLog : list Execution;
  TotalPnL : Q;
  TotalTrades : nat;
  Success : bool }.

(** The P&L loop of [runTradingSession]: (buyTotal, sellTotal). *)
Definition pnl_totals (tradeLog : list Execution) : Q * Q :=
  fold_left (fun (acc : Q * Q) trade =>
    let (buyTotal, sellTotal) := acc in
    match exSide trade with
    | SideBuy => (buyTotal + exPrice trade * exQuantity trade, sellTotal)
    | SideSell => (buyTotal, sellTotal + exPrice trade * exQuantity trade)
    end) tradeLog (0, 0).

(** The end of [runTradingSession]; [writeOk] is whether [writeTradeLog]
    returns a nil error. *)
Definition materialize (tradeLog : list Execution) (writeOk : bool) : SessionResults :=
  let (buyTotal, sellTotal) := pnl_totals tradeLog in
  let err_is_nil := if Nat.ltb 0 (length tradeLog) then writeOk else true in
  {| TradeLog := tradeLog;
     TotalPnL := sellTotal - buyTotal;
     TotalTrades := length tradeLog;
     Success := err_is_nil |}.

Definition runTradingSession (config : StrategyConfig) (fd : FeedData) (sch : Schedule)
    (writeOk : bool) : SessionResults :=
  materialize (session_trade_log config fd sch) writeOk.

(** A session as [runConcurrentSessions] launches it, with the environment
    it meets: its feed file's contents, the interleaving and the write outcome. *)
Record SessionRun := {
  runConfig : StrategyConfig;
  runFeed : FeedData;
  runSchedule : Schedule;
  runWriteOk : bool }.

(** [runConcurrentSessions]: one result per session (collected in arrival
    order; the counts below do not depend on that order). *)
Definition coordinator (sessions : list SessionRun) : list SessionResults :=
  map (fun s => runTradingSession (runConfig s) (runFeed s) (runSchedule s) (runWriteOk s))
      sessions.

Definition count_success (b : bool) (results : list SessionResults) : nat :=
  length (filter (fun r => Bool.eqb (Success r) b) results).

(* ------------------------------------------------------------------ *)
(** * The other queries of internal/orderbook *)

(** [GetBestBid()]: (price, quantity, exists). *)
Definition get_best_bid (ob : OrderBook) : Q * Q * bool :=
  match bids ob with
  | [] => (0, 0, false)
  | b :: _ => (Price b, Quantity b, true)
  end.

Definition GetBestBid : BookM (Q * Q * bool) := ob <- get ;; ret (get_best_bid ob).

(** [GetBestAsk()] *)
Definition get_best_ask (ob : OrderBook) : Q * Q * bool :=
  match asks ob with
  | [] => (0, 0, false)
  | a :: _ => (Price a, Quantity a, true)
  end.

Definition GetBestAsk : BookM (Q * Q * bool) := ob <- get ;; ret (get_best_ask ob).

(** [GetSpread()] *)
Definition GetSpread : BookM (Q * bool) :=
  rb <- GetBestBid ;;
  ra <- GetBestAsk ;;
  let '(bidPrice, _, bidExists) := rb in
  let '(askPrice, _, askExists) := ra in
  if negb bidExists || negb askExists then ret (0, false)
  else ret (askPrice - bidPrice, true).

(** [GetMidPrice()] *)
Definition GetMidPrice : BookM (Q * bool) :=
  rb <- GetBestBid ;;
  ra <- GetBestAsk ;;
  let '(bidPrice, _, bidExists) := rb in
  let '(askPrice, _, askExists) := ra in
  if negb bidExists || negb askExists then ret (0, false)
  else ret ((bidPrice + askPrice) / 2, true).

(** [GetLiquidity(fromMid, percentage)]: (bidLiquidity, askLiquidity);
    [fromMid] is unused by the code. *)
Definition GetLiquidity (fromMid percentage : Q) : BookM (Q * Q) :=
  rm <- GetMidPrice ;;
  let (midPrice, exists_) := rm in
  if negb exists_ then ret (0, 0)
  else
    ob <- get ;;
    let minBidPrice := midPrice * (1 - percentage) in
    let bidLiquidity :=
      fold_left (fun liq bid =>
        if Qle_bool minBidPrice (Price bid) then liq + Quantity bid else liq)
        (bids ob) 0 in
    let maxAskPrice := midPrice * (1 + percentage) in
    let askLiquidity :=
      fold_left (fun liq ask =>
        if Qle_bool (Price ask) maxAskPrice then liq + Quantity ask else liq)
        (asks ob) 0 in
    ret (bidLiquidity, askLiquidity).

(** [GetOrderBookImbalance()]: over the 1% band around the mid price. *)
Definition GetOrderBookImbalance : BookM Q :=
  rl <- GetLiquidity 0 (1#100) ;;
  let (bidLiq, askLiq) := rl in
  let totalLiq := bidLiq + askLiq in
  if Qeq_bool totalLiq 0 then ret 0
  else ret ((bidLiq - askLiq) / totalLiq).

(** [Broker.Start]: the loop over the received signals ([now] advances by
    one per signal). *)
Fixpoint broker_run (now : nat) (signals : list TradeSignal) (executions : Chan Execution)
    : BookM (Chan Execution) :=
  match signals with
  | [] => ret executions
  | signal :: rest =>
      executions' <- broker_handle now signal executions ;;
      broker_run (S now) rest executions'
  end.

(** The watchers [scheduleExitSignals] arms. *)
Inductive ExitWatcher := TimeExit | TakeProfitExit | StopLossExit.

(** [scheduleExitSignals]: nothing without a position; otherwise the
    time-based watcher, the take-profit one if [TakeProfit > 0] and the
    stop-loss one if [StopLoss > 0]. *)
Definition scheduled_watchers (config : StrategyConfig) (position : option Position)
    : list ExitWatcher :=
  match position with
  | None => []
  | Some _ =>
      TimeExit :: (if Qltb 0 (TakeProfit config) then [TakeProfitExit] else [])
               ++ (if Qltb 0 (StopLoss config) then [StopLossExit] else [])
  end.

(** The body of a watcher once its sleep ends.  The take-profit and
    stop-loss watchers compute a target price that is only logged; all three
    send the same market Sell. *)
Definition watcher_fire (config : StrategyConfig) (w : ExitWatcher)
    (position : option Position) (now : nat) (signals : Chan TradeSignal)
    : Chan TradeSignal :=
  match w with
  | TimeExit => exit_watcher_fire position now signals
  | TakeProfitExit =>
      let _profitPrice := match position with
                          | Some p => posEntryPrice p * (1 + TakeProfit config)
                          | None => 0 end in
      exit_watcher_fire position now signals
  | StopLossExit =>
      let _stopPrice := match position with
                        | Some p => posEntryPrice p * (1 - StopLoss config)
                        | None => 0 end in
      exit_watcher_fire position now signals
  end.

(** The given watchers firing one after the other, in the order their
    sleeps end, while [position] is still what they read; each stamps its
    signal with its own [time.Now()], [stamp w]. *)
Definition fire_all (config : StrategyConfig) (ws : list ExitWatcher)
    (position : option Position) (stamp : ExitWatcher -> nat) (signals : Chan TradeSignal)
    : Chan TradeSignal :=
  fold_left (fun c w => watcher_fire config w position (stamp w) c) ws signals.

(** The summary loop of [runConcurrentSessions]:
    (successfulSessions, totalTrades, totalPnL). *)
Definition summarize (results : list SessionResults) : nat * nat * Q :=
  fold_left (fun (acc : nat * nat * Q) r =>
    let '(successfulSessions, totalTrades, totalPnL) := acc in
    if Success r
    then (S successfulSessions, (totalTrades + TotalTrades r)%nat, totalPnL + TotalPnL r)
    else acc) results (0%nat, 0%nat, 0).

(** The lines [OrderBook.String()] prints, with the numbers kept as values
    ([%.2f] formatting is not modelled). *)
Inductive BookLine :=
  | HeaderLine (sym : nat) (ts : nat)
  | AsksLabel
  | LevelLine (quantity price : Q)
  | SpreadLine (spread : Q)
  | BidsLabel.

(** [for i := len(ob.asks) - 1; i >= 0 && i >= len(ob.asks)-5; i--]; the
    index is a Go [int], [fuel] bounds the iterations. *)
Fixpoint ask_display (asks : list OrderBookEntry) (i : Z) (fuel : nat) : list BookLine :=
  match fuel with
  | O => []
  | S fuel' =>
      if (0 <=? i)%Z && (Z.of_nat (length asks) - 5 <=? i)%Z then
        let a := nth (Z.to_nat i) asks {| Price := 0; Quantity := 0 |} in
        LevelLine (Quantity a) (Price a) :: ask_display asks (i - 1)%Z fuel'
      else []
  end.

(** [for i := 0; i < len(ob.bids) && i < 5; i++] *)
Fixpoint bid_display (bids : list OrderBookEntry) (i : nat) (fuel : nat) : list BookLine :=
  match fuel with
  | O => []
  | S fuel' =>
      if Nat.ltb i (length bids) && Nat.ltb i 5 then
        let b := nth i bids {| Price := 0; Quantity := 0 |} in
        LevelLine (Quantity b) (Price b) :: bid_display bids (S i) fuel'
      else []
  end.

(** The line printed for one level. *)
Definition level_line (l : OrderBookEntry) : BookLine := LevelLine (Quantity l) (Price l).

(** [String()] *)
Definition book_string (ob : OrderBook) : list BookLine :=
  let n := length (asks ob) in
  [HeaderLine (symbol ob) (lastUpdated ob); AsksLabel]
  ++ ask_display (asks ob) (Z.of_nat n - 1)%Z (S n)
  ++ (let (spread, exists_) := fst (GetSpread ob) in
      if exists_ then [SpreadLine spread] else [])
  ++ [BidsLabel]
  ++ bid_display (bids ob) 0 (S (length (bids ob))).

Definition String : BookM (list BookLine) := ob <- get ;; ret (book_string ob).

(* ------------------------------------------------------------------ *)
(** * Reading of the spec: fill price *)

(** In the reversed sorted prefix of [sort_slice], an element is never
    [less] than the one after it (the one to its left in the slice). *)
Definition not_less {A} (less : A -> A -> bool) (a b : A) : Prop := less a b = false.

(** Total quantity of a list of levels. *)
Fixpoint total_qty (levels : list OrderBookEntry) : Q :=
  match levels with
  | [] => 0
  | l :: rest => Quantity l + total_qty rest
  end.

(** The spec's cost: walking the levels in order, level [l] reached after
    [before] units of cumulative quantity contributes
    [price * min(levelQty, remaining)] with [remaining = max 0 (q - before)]. *)
Fixpoint consumed_cost (levels : list OrderBookEntry) (before q : Q) : Q :=
  match levels with
  | [] => 0
  | l :: rest =>
      Price l * Qmin (Quantity l) (Qmax 0 (q - before))
      + consumed_cost rest (before + Quantity l) q
  end.

(** The spec's [fillPrice]: not fillable when the total quantity is below
    [q], otherwise the quantity-weighted average [cost / q]. *)
Definition fill_price_spec (levels : list OrderBookEntry) (q : Q) : option Q :=
  if Qltb (total_qty levels) q then None else Some (consumed_cost levels 0 q / q).

(** The code's [(price, ok)] agrees with the spec's answer. *)
Definition fill_agrees (r : Q * bool) (spec : option Q) : Prop :=
  match r, spec with
  | (p, true), Some p' => p == p'
  | (_, false), None => True
  | _, _ => False
  end.

(** An L2 level carries a non-negative quantity. *)
Definition nonneg_levels (levels : list OrderBookEntry) : Prop :=
  Forall (fun l => 0 <= Quantity l) levels.

(** * Reading of the spec: depth, fillability, ordering, execution *)

(** Sum of the quantities of the levels passing a price test. *)
Definition qty_where (ok : OrderBookEntry -> bool) (levels : list OrderBookEntry) : Q :=
  total_qty (filter ok levels).

(** Cumulative quantity of the bids at prices [>= p]. *)
Definition bid_depth_at_or_above (ob : OrderBook) (p : Q) : Q :=
  qty_where (fun bid => Qle_bool p (Price bid)) (bids ob).

(** Cumulative quantity of the asks at prices [<= p]. *)
Definition ask_depth_at_or_below (ob : OrderBook) (p : Q) : Q :=
  qty_where (fun ask => Qle_bool (Price ask) p) (asks ob).

Definition strictly_descending (levels : list OrderBookEntry) : Prop :=
  Sorted (fun a b => Price b < Price a) levels.
Definition strictly_ascending (levels : list OrderBookEntry) : Prop :=
  Sorted (fun a b => Price a < Price b) levels.
Definition descending (levels : list OrderBookEntry) : Prop :=
  Sorted (fun a b => Price b <= Price a) levels.
Definition ascending (levels : list OrderBookEntry) : Prop :=
  Sorted (fun a b => Price a <= Price b) levels.

(** The spec's [execute(intent)]: market orders fill at [fillPrice] or are
    rejected; limit orders fill at their limit when [canFill], otherwise fall
    back to the market fill, otherwise are rejected. *)
Definition execute_spec (ob : OrderBook) (now : nat) (intent : TradeSignal)
    : option Execution :=
  let fill price := Some {| exSymbol := sigSymbol intent; exSide := sigSide intent;
                            exPrice := price; exQuantity := sigQuantity intent;
                            exTimestamp := now |} in
  let market := match get_fill_price ob (sigSide intent) (sigQuantity intent) with
                | (p, true) => fill p
                | (_, false) => None
                end in
  if Qeq_bool (sigPrice intent) 0 then market
  else if can_fill ob (sigSide intent) (sigPrice intent) (sigQuantity intent)
  then fill (sigPrice intent)
  else market.

(** The notional of the fills of one side. *)
Fixpoint notional (side : Side) (fills : list Execution) : Q :=
  match fills with
  | [] => 0
  | f :: rest =>
      (if Side_eqb (exSide f) side then exPrice f * exQuantity f else 0)
      + notional side rest
  end.

(* ------------------------------------------------------------------ *)
(** * Concrete inputs *)

Definition lvl (p q : Q) : OrderBookEntry := {| Price := p; Quantity := q |}.

(** The asks of the spec's example, with some bids, given unsorted. *)
Definition example_snapshot : OrderBookSnapshot :=
  {| snapSymbol := BTCUSD; snapTimestamp := 0;
     Bids := [lvl 99 1; lvl 100 2; lvl (199#2) 3];
     Asks := [lvl 102 (3#2); lvl 101 1; lvl (203#2) 2] |}.

Definition example_book : OrderBook := update_book example_snapshot.

(** A snapshot whose bids and asks repeat a price. *)
Definition duplicate_snapshot : OrderBookSnapshot :=
  {| snapSymbol := BTCUSD; snapTimestamp := 0;
     Bids := [lvl 100 1; lvl 100 2];
     Asks := [lvl 101 1; lvl 101 2] |}.

Definition full_executions : Chan Execution :=
  Build_Chan (repeat {| exSymbol := BTCUSD; exSide := SideBuy; exPrice := 101;
                        exQuantity := 1; exTimestamp := 0 |} 10) 10.

Definition full_signals : Chan TradeSignal :=
  Build_Chan (repeat (entry_signal {| EntryPrice := 0; OrderSize := 1; StopLoss := 0;
                                     TakeProfit := 0; LiquidityThresh := 0;
                                     MaxHoldTime := 0 |} 0) 10) 10.

Definition market_buy_one : TradeSignal :=
  {| sigSymbol := BTCUSD; sigSide := SideBuy; sigPrice := 0; sigQuantity := 1;
     sigTimestamp := 0 |}.

(** A limit Buy of 2 at 102. *)
Definition limit_buy_102 : TradeSignal :=
  {| sigSymbol := BTCUSD; sigSide := SideBuy; sigPrice := 102; sigQuantity := 2;
     sigTimestamp := 0 |}.

(** The position the first of [three_sessions] opens. *)
Definition open_position : Position :=
  {| posSymbol := BTCUSD; posQuantity := 5#2; posEntryPrice := 2026#20; posEntryTime := 0 |}.

Definition config_of (entry size : Q) (hold : nat) : StrategyConfig :=
  {| EntryPrice := entry; OrderSize := size; StopLoss := 1#100; TakeProfit := 4#100;
     LiquidityThresh := 800; MaxHoldTime := hold |}.

(** Three sessions, the second of which cannot load its feed file; every
    entry is executed after the first snapshot, every trade log is written. *)
Definition three_sessions : list SessionRun :=
  [ {| runConfig := config_of 0 (5#2) 8; runFeed := Loaded [example_snapshot];
       runSchedule := {| received := []; entry_at := Some 1%nat; exits_at := [1%nat] |};
       runWriteOk := true |};
    {| runConfig := config_of 3000 5 12; runFeed := LoadError;
       runSchedule := {| received := []; entry_at := Some 1%nat; exits_at := [1%nat] |};
       runWriteOk := true |};
    {| runConfig := config_of 0 1 6; runFeed := Loaded [example_snapshot];
       runSchedule := {| received := []; entry_at := Some 1%nat; exits_at := [] |};
       runWriteOk := true |} ].

(* ------------------------------------------------------------------ *)
(** * Comparison helpers *)

Lemma Qle_bool_false x y : Qle_bool x y = false -> y < x.
Proof.
  intro H. apply Qnot_le_lt. intro H'. apply Qle_bool_iff in H'. congruence.
Qed.

Lemma Qltb_true x y : Qltb x y = true -> x < y.
Proof. unfold Qltb. intro H. apply negb_true_iff in H. now apply Qle_bool_false. Qed.

Lemma Qltb_false x y : Qltb x y = false -> y <= x.
Proof. unfold Qltb. intro H. apply negb_false_iff in H. now apply Qle_bool_iff. Qed.

Lemma Qltb_iff x y : Qltb x y = true <-> x < y.
Proof.
  split; [apply Qltb_true|]. intro H.
  destruct (Qltb x y) eqn:E; [reflexivity|]. apply Qltb_false in E. lra.
Qed.

(** Turn the boolean comparisons of a hypothesis into propositions. *)
Ltac qbool H :=
  first [ apply Qle_bool_iff in H | apply Qle_bool_false in H
        | apply Qltb_true in H | apply Qltb_false in H ].

Lemma total_qty_nonneg levels : nonneg_levels levels -> 0 <= total_qty levels.
Proof.
  induction 1 as [|l rest Hl Hrest IH]; simpl; lra.
Qed.

Lemma consumed_cost_exhausted levels :
  nonneg_levels levels -> forall before q, q <= before -> consumed_cost levels before q == 0.
Proof.
  induction 1 as [|l rest Hl Hrest IH]; intros before q Hq; simpl; [reflexivity|].
  rewrite (IH (before + Quantity l) q) by lra.
  rewrite (Q.max_l 0 (q - before)) by lra.
  rewrite (Q.min_r (Quantity l) 0) by lra.
  ring.
Qed.

(** The loop of [GetFillPrice] against the spec: remaining quantity
    [max 0 (r - total)], cost [c + consumed_cost]. *)
Lemma fill_loop_spec levels :
  nonneg_levels levels ->
  forall r c before q, r == Qmax 0 (q - before) ->
    fst (fill_loop levels r c) == Qmax 0 (r - total_qty levels) /\
    snd (fill_loop levels r c) == c + consumed_cost levels before q.
Proof.
  induction 1 as [|l rest Hl Hrest IH]; intros r c before q Hr; simpl.
  - split; [|ring]. rewrite Hr.
    destruct (Q.max_spec 0 (q - before)) as [[H1 H2]|[H1 H2]]; rewrite H2;
      [rewrite (Q.max_r 0 (q - before - 0)) by lra | rewrite (Q.max_l 0 (0 - 0)) by lra];
      ring.
  - pose proof (total_qty_nonneg rest Hrest) as Ht.
    assert (Hr0 : 0 <= r) by (rewrite Hr; apply Q.le_max_l).
    destruct (Qle_bool r 0) eqn:Eb.
    + qbool Eb. assert (Hz : r == 0) by lra.
      assert (Hqb : q <= before).
      { destruct (Q.max_spec 0 (q - before)) as [[H1 H2]|[H1 H2]]; lra. }
      simpl. split.
      * rewrite (Q.max_l 0 (r - (Quantity l + total_qty rest))) by lra. lra.
      * rewrite (consumed_cost_exhausted rest Hrest (before + Quantity l) q) by lra.
        rewrite (Q.max_l 0 (q - before)) by lra.
        rewrite (Q.min_r (Quantity l) 0) by lra. ring.
    + qbool Eb.
      assert (Hrq : r == q - before).
      { destruct (Q.max_spec 0 (q - before)) as [[H1 H2]|[H1 H2]]; lra. }
      set (fillQty := if Qltb r (Quantity l) then r else Quantity l).
      assert (Hfill : fillQty == Qmin (Quantity l) r).
      { unfold fillQty. destruct (Qltb r (Quantity l)) eqn:E; qbool E.
        - rewrite Q.min_r by lra. reflexivity.
        - rewrite Q.min_l by lra. reflexivity. }
      assert (Hr' : r - fillQty == Qmax 0 (q - (before + Quantity l))).
      { rewrite Hfill.
        destruct (Q.min_spec (Quantity l) r) as [[H1 H2]|[H1 H2]]; rewrite H2.
        - rewrite Q.max_r by lra. lra.
        - rewrite Q.max_l by lra. lra. }
      destruct (IH (r - fillQty) (c + fillQty * Price l) (before + Quantity l) q Hr')
        as [IH1 IH2].
      split.
      * rewrite IH1. rewrite Hfill.
        destruct (Q.min_spec (Quantity l) r) as [[H1 H2]|[H1 H2]]; rewrite H2.
        -- destruct (Q.max_spec 0 (r - Quantity l - total_qty rest)) as [[H3 H4]|[H3 H4]];
             rewrite H4;
           destruct (Q.max_spec 0 (r - (Quantity l + total_qty rest))) as [[H5 H6]|[H5 H6]];
             rewrite H6; lra.
        -- rewrite (Q.max_l 0 (r - r - total_qty rest)) by lra.
           rewrite (Q.max_l 0 (r - (Quantity l + total_qty rest))) by lra. reflexivity.
      * rewrite IH2. rewrite Hfill, <- Hr. ring.
Qed.

Lemma fill_result_agrees levels q :
  0 < q -> nonneg_levels levels ->
  fill_agrees (let (remainingQty, totalCost) := fill_loop levels q 0 in
               if Qltb 0 remainingQty then (0, false) else (totalCost / q, true))
              (fill_price_spec levels q).
Proof.
  intros Hq Hl.
  assert (Hr : q == Qmax 0 (q - 0)) by (rewrite Q.max_r by lra; ring).
  destruct (fill_loop_spec levels Hl q 0 0 q Hr) as [H1 H2].
  destruct (fill_loop levels q 0) as [rem cost]; simpl in H1, H2.
  unfold fill_price_spec.
  destruct (Qltb 0 rem) eqn:E1; destruct (Qltb (total_qty levels) q) eqn:E2;
    qbool E1; qbool E2; simpl; auto.
  - destruct (Q.max_spec 0 (q - total_qty levels)) as [[H3 H4]|[H3 H4]]; lra.
  - destruct (Q.max_spec 0 (q - total_qty levels)) as [[H3 H4]|[H3 H4]]; lra.
  - rewrite H2. field. lra.
Qed.

Lemma fold_sum_where (ok : OrderBookEntry -> bool) (levels : list OrderBookEntry) (c : Q) :
  fold_left (fun (depth : Q) (l : OrderBookEntry) =>
               if ok l then depth + Quantity l else depth) levels c
  == c + qty_where ok levels.
Proof.
  revert c; unfold qty_where.
  induction levels as [|l rest IH]; intro c; simpl; [ring|].
  rewrite IH. destruct (ok l); simpl; ring.
Qed.

(* ------------------------------------------------------------------ *)
(** * Claims on the order book queries *)

(** C1: for [q > 0] (and an L2 book, whose level quantities are
    non-negative), [GetFillPrice(Buy, q)] walks the stored asks in order
    (ascending, see C4), consuming [min(remaining, levelQty)] per level: it
    returns [(cost / q, true)] with the spec's cost when the total ask
    quantity reaches [q] and [(_, false)] exactly when it is below [q];
    [GetFillPrice(Sell, q)] does the same on the bids. *)
Theorem GetFillPrice_weighted_average (ob : OrderBook) (q : Q)
    (Hq : 0 < q) (Hasks : nonneg_levels (asks ob)) (Hbids : nonneg_levels (bids ob)) :
  fill_agrees (fst (GetFillPrice SideBuy q ob)) (fill_price_spec (asks ob) q) /\
  fill_agrees (fst (GetFillPrice SideSell q ob)) (fill_price_spec (bids ob) q).
Proof.
  split; apply fill_result_agrees; assumption.
Qed.

Lemma GetFillPrice_weighted_average_witness :
  0 < 5#2 /\ nonneg_levels (asks example_book) /\ nonneg_levels (bids example_book) /\
  fill_agrees (fst (GetFillPrice SideBuy (5#2) example_book))
              (fill_price_spec (asks example_book) (5#2)) /\
  fill_agrees (fst (GetFillPrice SideSell (5#2) example_book))
              (fill_price_spec (bids example_book) (5#2)).
Proof.
  assert (H0 : 0 < 5#2) by reflexivity.
  assert (Ha : nonneg_levels (asks example_book))
    by (vm_compute; repeat constructor; discriminate).
  assert (Hb : nonneg_levels (bids example_book))
    by (vm_compute; repeat constructor; discriminate).
  destruct (GetFillPrice_weighted_average example_book (5#2) H0 Ha Hb) as [H1 H2].
  exact (conj H0 (conj Ha (conj Hb (conj H1 H2)))).
Defined.

(** The spec's example: asks (101,1), (101.5,2), (102,1.5) and q = 2.5 give
    101.30. *)
Example GetFillPrice_spec_example :
  fst (GetFillPrice SideBuy (5#2) example_book) = (2026#20, true) /\ 2026#20 == 10130#100.
Proof. split; reflexivity. Qed.

(** C9: with a zero quantity [GetFillPrice] never takes the not-fillable
    branch: the loop breaks at once and it returns [ok = true] with the
    unguarded quotient [0 / quantity], on every book (the empty one
    included). *)
Theorem GetFillPrice_zero_quantity (ob : OrderBook) (side : Side) (q : Q) (Hq : q == 0) :
  GetFillPrice side q ob = ((0 / q, true), ob).
Proof.
  assert (Hle : Qle_bool q 0 = true) by (apply Qle_bool_iff; lra).
  assert (Hlt : Qltb 0 q = false) by (unfold Qltb; rewrite Hle; reflexivity).
  unfold GetFillPrice, bind, get, ret, get_fill_price.
  destruct side; [destruct (asks ob) | destruct (bids ob)]; simpl;
    rewrite ?Hle; simpl; rewrite Hlt; reflexivity.
Qed.

Lemma GetFillPrice_zero_quantity_witness :
  0 == 0 /\ GetFillPrice SideBuy 0 New = ((0 / 0, true), New).
Proof.
  split; [reflexivity|]. apply GetFillPrice_zero_quantity. reflexivity.
Defined.

(** C10: [GetCumulativeDepth(Buy, p)] sums the BID levels at prices [>= p]
    and [GetCumulativeDepth(Sell, p)] the ASK levels at prices [<= p],
    whereas [CanFill(Buy, ...)] reads only the asks and [CanFill(Sell, ...)]
    only the bids. *)
Theorem GetCumulativeDepth_side_selection (ob : OrderBook) (p q : Q) :
  fst (GetCumulativeDepth SideBuy p ob) == bid_depth_at_or_above ob p /\
  fst (GetCumulativeDepth SideSell p ob) == ask_depth_at_or_below ob p /\
  (forall other_bids,
     can_fill {| symbol := symbol ob; bids := other_bids; asks := asks ob;
                 lastUpdated := lastUpdated ob |} SideBuy p q
     = can_fill ob SideBuy p q) /\
  (forall other_asks,
     can_fill {| symbol := symbol ob; bids := bids ob; asks := other_asks;
                 lastUpdated := lastUpdated ob |} SideSell p q
     = can_fill ob SideSell p q).
Proof.
  unfold GetCumulativeDepth, bind, get, ret; simpl.
  unfold bid_depth_at_or_above, ask_depth_at_or_below.
  split; [|split]; [rewrite fold_sum_where; ring | rewrite fold_sum_where; ring |].
  split; intros; reflexivity.
Qed.

Lemma can_fill_loop_depth (ok : OrderBookEntry -> bool) (q : Q) (levels : list OrderBookEntry) :
  nonneg_levels levels ->
  forall availableQty, availableQty < q ->
    can_fill_loop ok q availableQty levels = true <->
    q <= availableQty + qty_where ok levels.
Proof.
  unfold qty_where.
  induction 1 as [|l rest Hl Hrest IH]; intros a Ha; simpl.
  - split; [discriminate | lra].
  - pose proof (total_qty_nonneg (filter ok rest)) as Hf.
    assert (Hfn : nonneg_levels (filter ok rest))
      by (apply Forall_forall; intros x Hx; apply filter_In in Hx;
          destruct Hx as [Hx _]; exact (proj1 (Forall_forall _ _) Hrest x Hx)).
    specialize (Hf Hfn).
    destruct (ok l); simpl.
    + destruct (Qle_bool q (a + Quantity l)) eqn:E; qbool E.
      * split; [intros _; lra | reflexivity].
      * rewrite (IH (a + Quantity l) E). split; intro; lra.
    + apply IH; exact Ha.
Qed.

(** C6 (as stated): [CanFill(Sell, p, q)] is true iff the bid depth at
    prices [>= p] reaches [q].  Refuted: on the empty book
    [CanFill(Sell, 100, 0)] is false although the depth 0 reaches 0 (the
    loop only compares after adding a qualifying level). *)
Lemma CanFill_depth_counterexample :
  ~ (fst (CanFill SideSell 100 0 New) = true <-> 0 <= bid_depth_at_or_above New 100).
Proof.
  vm_compute. intros [_ H]. discriminate (H (fun E => ltac:(discriminate E))).
Qed.

Lemma can_fill_loop_nonpos (ok : OrderBookEntry -> bool) (q : Q) (levels : list OrderBookEntry) :
  nonneg_levels levels -> q <= 0 ->
  forall availableQty, 0 <= availableQty ->
    can_fill_loop ok q availableQty levels = true <->
    exists l, In l levels /\ ok l = true.
Proof.
  intros Hl Hq. induction Hl as [|l rest Hl Hrest IH]; intros a Ha; simpl.
  - split; [discriminate | intros [x [[] _]]].
  - destruct (ok l) eqn:E.
    + destruct (Qle_bool q (a + Quantity l)) eqn:E2.
      * split; [intros _; exists l; auto | reflexivity].
      * qbool E2. lra.
    + rewrite (IH a Ha). split.
      * intros [x [Hx Hok]]. exists x. auto.
      * intros [x [[<-|Hx] Hok]]; [congruence | exists x; auto].
Qed.

(** C6 (amended): for [q > 0] and an L2 book (non-negative level
    quantities), [CanFill(Sell, p, q)] is true iff the cumulative bid
    quantity at prices [>= p] is at least [q], and [CanFill(Buy, p, q)] iff
    the cumulative ask quantity at prices [<= p] is at least [q].  For any
    [q' <= 0], [CanFill(Sell, p, q')] is true iff some bid is priced [>= p],
    and [CanFill(Buy, p, q')] iff some ask is priced [<= p]: when no level
    qualifies, [CanFill] is false even for [q' <= 0]. *)
Theorem CanFill_iff_depth (ob : OrderBook) (p q : Q)
    (Hq : 0 < q) (Hasks : nonneg_levels (asks ob)) (Hbids : nonneg_levels (bids ob)) :
  (fst (CanFill SideSell p q ob) = true <-> q <= bid_depth_at_or_above ob p) /\
  (fst (CanFill SideBuy p q ob) = true <-> q <= ask_depth_at_or_below ob p) /\
  (forall q', q' <= 0 ->
     (fst (CanFill SideSell p q' ob) = true <-> exists b, In b (bids ob) /\ p <= Price b) /\
     (fst (CanFill SideBuy p q' ob) = true <-> exists a, In a (asks ob) /\ Price a <= p)).
Proof.
  unfold CanFill, bind, get, ret, can_fill, bid_depth_at_or_above,
    ask_depth_at_or_below; simpl.
  split; [|split].
  - rewrite (can_fill_loop_depth _ q _ Hbids 0 Hq). split; intro; lra.
  - rewrite (can_fill_loop_depth _ q _ Hasks 0 Hq). split; intro; lra.
  - intros q' Hq'. split.
    + rewrite (can_fill_loop_nonpos _ q' _ Hbids Hq' 0 (Qle_refl 0)).
      split; intros [x [Hx Hok]]; exists x; split; try exact Hx;
        [apply Qle_bool_iff in Hok | apply Qle_bool_iff]; exact Hok.
    + rewrite (can_fill_loop_nonpos _ q' _ Hasks Hq' 0 (Qle_refl 0)).
      split; intros [x [Hx Hok]]; exists x; split; try exact Hx;
        [apply Qle_bool_iff in Hok | apply Qle_bool_iff]; exact Hok.
Qed.

Lemma CanFill_iff_depth_witness :
  0 < 5#2 /\ nonneg_levels (asks example_book) /\ nonneg_levels (bids example_book) /\
  (fst (CanFill SideSell 100 (5#2) example_book) = true <->
     5#2 <= bid_depth_at_or_above example_book 100) /\
  (fst (CanFill SideBuy 100 (5#2) example_book) = true <->
     5#2 <= ask_depth_at_or_below example_book 100) /\
  (fst (CanFill SideBuy 100 0 example_book) = true <->
     exists a, In a (asks example_book) /\ Price a <= 100).
Proof.
  assert (H0 : 0 < 5#2) by reflexivity.
  assert (Ha : nonneg_levels (asks example_book))
    by (vm_compute; repeat constructor; discriminate).
  assert (Hb : nonneg_levels (bids example_book))
    by (vm_compute; repeat constructor; discriminate).
  destruct (CanFill_iff_depth example_book 100 (5#2) H0 Ha Hb) as [H1 [H2 H3]].
  refine (conj H0 (conj Ha (conj Hb (conj H1 (conj H2 _))))).
  exact (proj2 (H3 0 (Qle_refl 0))).
Defined.

(* ------------------------------------------------------------------ *)
(** * Claims on the broker *)

(** C2: [executeOrder] follows the spec's algorithm: a market order fills at
    [GetFillPrice(side, qty)] when fillable and is rejected otherwise; a
    limit order fills at its limit when [CanFill(side, limit, qty)], else
    falls back to the market fill when fillable, else is rejected; nothing is
    rested. *)
Theorem executeOrder_algorithm (ob : OrderBook) (now : nat) (intent : TradeSignal) :
  fst (executeOrder now intent ob) = execute_spec ob now intent.
Proof.
  unfold executeOrder, execute_spec, GetFillPrice, CanFill, bind, get, ret; simpl.
  destruct (Qeq_bool (sigPrice intent) 0).
  - destruct (get_fill_price ob (sigSide intent) (sigQuantity intent)) as [p [|]];
      reflexivity.
  - destruct (can_fill ob (sigSide intent) (sigPrice intent) (sigQuantity intent));
      [reflexivity|].
    destruct (get_fill_price ob (sigSide intent) (sigQuantity intent)) as [p [|]];
      reflexivity.
Qed.

Lemma executeOrder_preserves_book (ob : OrderBook) (now : nat) (intent : TradeSignal) :
  snd (executeOrder now intent ob) = ob.
Proof.
  unfold executeOrder, GetFillPrice, CanFill, bind, get, ret; simpl.
  destruct (Qeq_bool (sigPrice intent) 0).
  - destruct (get_fill_price ob (sigSide intent) (sigQuantity intent)) as [p [|]];
      reflexivity.
  - destruct (can_fill ob (sigSide intent) (sigPrice intent) (sigQuantity intent));
      [reflexivity|].
    destruct (get_fill_price ob (sigSide intent) (sigQuantity intent)) as [p [|]];
      reflexivity.
Qed.

(** C7: [executeOrder], and the broker's handling of a signal around it,
    leave the order book exactly as they found it. *)
Theorem executeOrder_book_unchanged (ob : OrderBook) (now : nat) (intent : TradeSignal) :
  snd (executeOrder now intent ob) = ob /\
  (forall executions : Chan Execution, snd (broker_handle now intent executions ob) = ob).
Proof.
  pose proof (executeOrder_preserves_book ob now intent) as H.
  split; [exact H|]. intro executions.
  unfold broker_handle, bind at 1.
  destruct (executeOrder now intent ob) as [e ob'] eqn:E. simpl in H. subst ob'.
  destruct e; reflexivity.
Qed.

(* ------------------------------------------------------------------ *)
(** * The insertion sort of [sort.Slice] *)

Section InsertionSort.
Variable A : Type.
Variable less : A -> A -> bool.
Hypothesis less_asym : forall a b, less a b = true -> less b a = false.
Hypothesis not_less_trans :
  forall a b c, less a b = false -> less b c = false -> less a c = false.

Lemma insert_rev_hd (a x : A) (rp : list A) :
  HdRel (not_less less) a rp -> not_less less a x ->
  HdRel (not_less less) a (insert_rev less x rp).
Proof.
  intros Hhd Hax. destruct rp as [|y ys]; simpl; [constructor; exact Hax|].
  destruct (less x y); constructor; [inversion Hhd; assumption | exact Hax].
Qed.

Lemma insert_rev_sorted (x : A) (rp : list A) :
  Sorted (not_less less) rp -> Sorted (not_less less) (insert_rev less x rp).
Proof.
  induction 1 as [|y ys Hys IH Hhd]; simpl; [repeat constructor|].
  destruct (less x y) eqn:E.
  - constructor; [exact IH|]. apply insert_rev_hd; [exact Hhd|].
    unfold not_less. apply less_asym. exact E.
  - constructor; [constructor; assumption | constructor; exact E].
Qed.

Lemma insert_rev_perm (x : A) (rp : list A) :
  Permutation (insert_rev less x rp) (x :: rp).
Proof.
  induction rp as [|y ys IH]; simpl; [reflexivity|].
  destruct (less x y); [|reflexivity].
  rewrite IH. apply perm_swap.
Qed.

Lemma fold_insert_sorted (l : list A) (rp : list A) :
  Sorted (not_less less) rp -> Sorted (not_less less) (fold_left (fun rp x => insert_rev less x rp) l rp).
Proof.
  revert rp. induction l as [|x l IH]; intros rp H; simpl; [exact H|].
  apply IH. apply insert_rev_sorted. exact H.
Qed.

Lemma fold_insert_perm (l : list A) (rp : list A) :
  Permutation (fold_left (fun rp x => insert_rev less x rp) l rp) (rev l ++ rp).
Proof.
  revert rp. induction l as [|x l IH]; intro rp; simpl; [reflexivity|].
  rewrite IH, insert_rev_perm, <- app_assoc. reflexivity.
Qed.

Lemma strongly_sorted_snoc (R : A -> A -> Prop) (l : list A) (x : A) :
  StronglySorted R l -> Forall (fun y => R y x) l -> StronglySorted R (l ++ [x]).
Proof.
  induction 1 as [|y l Hl IH Hy]; intro Hall; simpl.
  - repeat constructor.
  - inversion Hall as [|? ? Hyx Hall']; subst.
    constructor; [exact (IH Hall')|].
    apply Forall_app; split; [exact Hy | constructor; [exact Hyx | constructor]].
Qed.

Lemma strongly_sorted_rev (R : A -> A -> Prop) (l : list A) :
  StronglySorted R l -> StronglySorted (fun a b => R b a) (rev l).
Proof.
  induction 1 as [|y l Hl IH Hy]; simpl; [constructor|].
  apply strongly_sorted_snoc; [exact IH|].
  apply Forall_forall. intros z Hz. apply in_rev in Hz.
  exact (proj1 (Forall_forall _ _) Hy z Hz).
Qed.

(** [sort_slice less l] is a permutation of [l] in which no element is
    [less] than one before it. *)
Lemma sort_slice_spec (l : list A) :
  Sorted (fun a b => less b a = false) (sort_slice less l) /\
  Permutation (sort_slice less l) l.
Proof.
  unfold sort_slice. split.
  - apply StronglySorted_Sorted.
    apply (strongly_sorted_rev (not_less less)).
    apply Sorted_StronglySorted; [exact not_less_trans|].
    apply fold_insert_sorted. constructor.
  - rewrite <- (rev_involutive l) at 2.
    apply Permutation_rev'.
    rewrite fold_insert_perm, app_nil_r. reflexivity.
Qed.
End InsertionSort.

Lemma Qltb_asym a b : Qltb a b = true -> Qltb b a = false.
Proof. intro H. qbool H. destruct (Qltb b a) eqn:E; [qbool E; lra | reflexivity]. Qed.

Lemma Qltb_false_trans a b c : Qltb a b = false -> Qltb b c = false -> Qltb a c = false.
Proof.
  intros H1 H2. qbool H1. qbool H2.
  destruct (Qltb a c) eqn:E; [qbool E; lra | reflexivity].
Qed.

Lemma sorted_weaken {A} (R S : A -> A -> Prop) (l : list A) :
  (forall a b, R a b -> S a b) -> Sorted R l -> Sorted S l.
Proof.
  intros HRS. induction 1 as [|x l Hl IH Hhd]; constructor; [exact IH|].
  destruct Hhd; constructor; apply HRS; assumption.
Qed.

(** C4 (as stated): after [Update] the bids are strictly descending and the
    asks strictly ascending.  Refuted: a snapshot repeating a price keeps
    both levels, so the stored sides are not strictly ordered. *)
Lemma Update_strict_order_counterexample :
  ~ strictly_descending (bids (snd (Update duplicate_snapshot New))) /\
  ~ strictly_ascending (asks (snd (Update duplicate_snapshot New))).
Proof.
  split; vm_compute; intro H; apply Sorted_inv in H; destruct H as [_ H];
    inversion H as [|? ? Hlt]; vm_compute in Hlt; discriminate.
Qed.

(** C4 (amended): after [Update] the stored bids are a permutation of the
    snapshot's bids sorted descending by price (non-strictly: levels with
    equal prices are all kept), and the stored asks a permutation of the
    snapshot's asks sorted ascending by price. *)
Theorem Update_sorted_sides (snapshot : OrderBookSnapshot) (ob : OrderBook) :
  descending (bids (snd (Update snapshot ob))) /\
  ascending (asks (snd (Update snapshot ob))) /\
  Permutation (bids (snd (Update snapshot ob))) (Bids snapshot) /\
  Permutation (asks (snd (Update snapshot ob))) (Asks snapshot).
Proof.
  unfold Update, put; simpl.
  destruct (sort_slice_spec _ bid_less
              (fun a b => Qltb_asym (Price b) (Price a))
              (fun a b c H1 H2 => Qltb_false_trans (Price c) (Price b) (Price a) H2 H1)
              (Bids snapshot)) as [Hb Pb].
  destruct (sort_slice_spec _ ask_less
              (fun a b => Qltb_asym (Price a) (Price b))
              (fun a b c H1 H2 => Qltb_false_trans (Price a) (Price b) (Price c) H1 H2)
              (Asks snapshot)) as [Ha Pa].
  repeat split; [| |exact Pb|exact Pa].
  - revert Hb. apply sorted_weaken. intros a b H. unfold bid_less in H. qbool H. exact H.
  - revert Ha. apply sorted_weaken. intros a b H. unfold ask_less in H. qbool H. exact H.
Qed.

(* ------------------------------------------------------------------ *)
(** * Claims on the session pipeline *)

Lemma executeOrder_fields (now : nat) (signal : TradeSignal) (ob : OrderBook) (e : Execution) :
  fst (executeOrder now signal ob) = Some e ->
  exSide e = sigSide signal /\ exQuantity e = sigQuantity signal.
Proof.
  unfold executeOrder, GetFillPrice, CanFill, bind, get, ret; simpl.
  destruct (Qeq_bool (sigPrice signal) 0).
  - destruct (get_fill_price ob (sigSide signal) (sigQuantity signal)) as [p [|]];
      simpl; intro H; inversion H; auto.
  - destruct (can_fill ob (sigSide signal) (sigPrice signal) (sigQuantity signal));
      [simpl; intro H; inversion H; auto|].
    destruct (get_fill_price ob (sigSide signal) (sigQuantity signal)) as [p [|]];
      simpl; intro H; inversion H; auto.
Qed.

Lemma executeOrder_empty_book (now : nat) (signal : TradeSignal) :
  0 < sigQuantity signal -> fst (executeOrder now signal New) = None.
Proof.
  intro Hq.
  assert (Hlt : Qltb 0 (sigQuantity signal) = true) by (apply Qltb_iff; exact Hq).
  unfold executeOrder, GetFillPrice, CanFill, bind, get, ret, get_fill_price, can_fill;
    simpl.
  destruct (sigSide signal), (Qeq_bool (sigPrice signal) 0); simpl; rewrite Hlt; reflexivity.
Qed.

Lemma entry_signal_fields (config : StrategyConfig) (now : nat) :
  sigSide (entry_signal config now) = SideBuy /\
  sigQuantity (entry_signal config now) = OrderSize config.
Proof. unfold entry_signal. destruct (Qeq_bool (EntryPrice config) 0); auto. Qed.

(** The shape of a session's trade log: empty, or the entry Buy followed by
    Sell exits of the same quantity. *)
Lemma session_trade_log_shape (config : StrategyConfig) (fd : FeedData) (sch : Schedule) :
  session_trade_log config fd sch = [] \/
  exists buy rest, session_trade_log config fd sch = buy :: rest /\
    exSide buy = SideBuy /\
    Forall (fun e => exSide e = SideSell /\ exQuantity e = exQuantity buy) rest.
Proof.
  unfold session_trade_log.
  destruct (entry_at sch) as [k|]; [|left; reflexivity].
  destruct (fst (executeOrder 0 (entry_signal config 0) _)) as [buy|] eqn:Eb;
    [|left; reflexivity].
  destruct (executeOrder_fields _ _ _ _ Eb) as [Hs Hq].
  destruct (entry_signal_fields config 0) as [Hs' Hq'].
  right. simpl. rewrite Hs, Hs'. eexists buy, _. split; [reflexivity|]. split; [congruence|].
  apply Forall_forall. intros e He. apply in_flat_map in He. destruct He as [j [_ Hj]].
  match type of Hj with
  | context [fst (executeOrder ?n ?sg ?bk)] =>
      destruct (fst (executeOrder n sg bk)) as [e'|] eqn:Ee
  end; simpl in Hj; [|contradiction].
  destruct Hj as [<-|[]].
  destruct (executeOrder_fields _ _ _ _ Ee) as [Hs2 Hq2]. simpl in Hs2, Hq2. auto.
Qed.

Lemma pnl_totals_fold (log : list Execution) (b0 s0 : Q) :
  let r := fold_left (fun (acc : Q * Q) trade =>
             let (buyTotal, sellTotal) := acc in
             match exSide trade with
             | SideBuy => (buyTotal + exPrice trade * exQuantity trade, sellTotal)
             | SideSell => (buyTotal, sellTotal + exPrice trade * exQuantity trade)
             end) log (b0, s0) in
  fst r == b0 + notional SideBuy log /\ snd r == s0 + notional SideSell log.
Proof.
  revert b0 s0. induction log as [|t rest IH]; intros b0 s0; simpl; [split; ring|].
  destruct (exSide t); simpl;
    [destruct (IH (b0 + exPrice t * exQuantity t) s0) as [H1 H2]
    | destruct (IH b0 (s0 + exPrice t * exQuantity t)) as [H1 H2]];
    rewrite H1, H2; split; ring.
Qed.

Lemma materialize_totals (log : list Execution) (writeOk : bool) :
  TotalPnL (materialize log writeOk) == notional SideSell log - notional SideBuy log /\
  TotalTrades (materialize log writeOk) = length log /\
  TradeLog (materialize log writeOk) = log.
Proof.
  unfold materialize, pnl_totals.
  destruct (pnl_totals_fold log 0 0) as [H1 H2].
  destruct (fold_left _ log (0, 0)) as [b s]. simpl in H1, H2 |- *.
  split; [rewrite H1, H2; ring | split; reflexivity].
Qed.

(** C5: the materialized result of every session has
    [TotalPnL = sum of sell notional - sum of buy notional] over its trade
    log and [TotalTrades = length] of that log; and a session whose log is
    one Buy fill followed by one Sell fill has
    [TotalPnL = (sellPrice - buyPrice) * quantity] and [TotalTrades = 2]
    (the Sell exit carries the position's quantity). *)
Theorem runTradingSession_pnl :
  (forall config fd sch writeOk,
     let r := runTradingSession config fd sch writeOk in
     TotalPnL r == notional SideSell (TradeLog r) - notional SideBuy (TradeLog r) /\
     TotalTrades r = length (TradeLog r)) /\
  (forall config fd sch writeOk buy sell,
     let r := runTradingSession config fd sch writeOk in
     TradeLog r = [buy; sell] ->
     exSide buy = SideBuy /\ exSide sell = SideSell /\ exQuantity sell = exQuantity buy /\
     TotalPnL r == (exPrice sell - exPrice buy) * exQuantity buy /\
     TotalTrades r = 2%nat).
Proof.
  split.
  - intros config fd sch writeOk. unfold runTradingSession.
    destruct (materialize_totals (session_trade_log config fd sch) writeOk) as [H1 [H2 H3]].
    rewrite H3. split; assumption.
  - intros config fd sch writeOk buy sell. unfold runTradingSession. simpl.
    destruct (materialize_totals (session_trade_log config fd sch) writeOk) as [H1 [H2 H3]].
    rewrite H3. intro Hlog. rewrite Hlog in H1, H2 |- *.
    destruct (session_trade_log_shape config fd sch) as [Hnil|[b [rest [Hl [Hb Hrest]]]]];
      [rewrite Hnil in Hlog; discriminate|].
    rewrite Hlog in Hl. inversion Hl; subst b rest.
    inversion Hrest as [|? ? [Hss Hsq] _]; subst.
    simpl in H1. rewrite Hb, Hss in H1. simpl in H1.
    split; [exact Hb|]. split; [exact Hss|]. split; [exact Hsq|].
    split; [rewrite H1, Hsq; ring | exact H2].
Qed.

Lemma runTradingSession_pnl_witness :
  TradeLog (runTradingSession (config_of 0 (5#2) 8) (Loaded [example_snapshot])
              {| received := []; entry_at := Some 1%nat; exits_at := [1%nat] |} true)
  = [ {| exSymbol := BTCUSD; exSide := SideBuy; exPrice := 2026#20; exQuantity := 5#2;
         exTimestamp := 0 |};
      {| exSymbol := BTCUSD; exSide := SideSell; exPrice := 1998#20; exQuantity := 5#2;
         exTimestamp := 2 |} ] /\
  TotalPnL (runTradingSession (config_of 0 (5#2) 8) (Loaded [example_snapshot])
              {| received := []; entry_at := Some 1%nat; exits_at := [1%nat] |} true)
  == ((1998#20) - (2026#20)) * (5#2).
Proof.
  split; [vm_compute; reflexivity|].
  apply (proj2 runTradingSession_pnl (config_of 0 (5#2) 8) (Loaded [example_snapshot])
           {| received := []; entry_at := Some 1%nat; exits_at := [1%nat] |} true
           {| exSymbol := BTCUSD; exSide := SideBuy; exPrice := 2026#20; exQuantity := 5#2;
              exTimestamp := 0 |}
           {| exSymbol := BTCUSD; exSide := SideSell; exPrice := 1998#20; exQuantity := 5#2;
              exTimestamp := 2 |}).
  vm_compute. reflexivity.
Defined.

Lemma feed_failure_trade_log (config : StrategyConfig) (sch : Schedule) :
  0 < OrderSize config -> session_trade_log config LoadError sch = [].
Proof.
  intro Hsize. unfold session_trade_log.
  destruct (entry_at sch) as [k|]; [|reflexivity].
  assert (Hbook : book_after (received_snapshots (feed_snapshots LoadError) (received sch)) k
                  = New).
  { unfold book_after. simpl. destruct (received sch); rewrite firstn_nil; reflexivity. }
  rewrite Hbook, executeOrder_empty_book; [reflexivity|].
  destruct (entry_signal_fields config 0) as [_ ->]. exact Hsize.
Qed.

Lemma count_failures (sessions : list SessionRun) :
  count_success false (coordinator sessions) =
  length (filter (fun s =>
            Nat.ltb 0 (length (session_trade_log (runConfig s) (runFeed s) (runSchedule s)))
            && negb (runWriteOk s)) sessions).
Proof.
  unfold count_success, coordinator.
  induction sessions as [|s rest IH]; [reflexivity|]. simpl.
  unfold runTradingSession at 1, materialize at 1.
  destruct (pnl_totals _). simpl.
  destruct (Nat.ltb 0 _), (runWriteOk s); simpl; rewrite ?IH; reflexivity.
Qed.

(** C3 (as stated): with 3 sessions of which exactly one cannot load its
    feed, the coordinator returns 3 results, 1 with [success = false] and 2
    with [success = true].  Refuted: the session whose feed fails has no
    trade, never calls [writeTradeLog], and reports [success = true]; with
    the other two writes succeeding all 3 results are successful. *)
Lemma coordinator_feed_failure_counterexample :
  length (filter (fun s => match runFeed s with LoadError => true | _ => false end)
            three_sessions) = 1%nat /\
  length (coordinator three_sessions) = 3%nat /\
  count_success false (coordinator three_sessions) = 0%nat /\
  count_success true (coordinator three_sessions) = 3%nat.
Proof. vm_compute. repeat split. Qed.

(** C3 (amended): the coordinator returns one result per session; a session
    whose feed file fails to load (with a positive order size) ends with an
    empty trade log, zero trades and [success = true]; [success = false] is
    reported exactly by the sessions that recorded at least one trade and
    whose trade-log write failed. *)
Theorem coordinator_feed_failure (sessions : list SessionRun) (config : StrategyConfig)
    (sch : Schedule) (writeOk : bool) (Hsize : 0 < OrderSize config) :
  length (coordinator sessions) = length sessions /\
  count_success false (coordinator sessions) =
    length (filter (fun s =>
              Nat.ltb 0 (length (session_trade_log (runConfig s) (runFeed s) (runSchedule s)))
              && negb (runWriteOk s)) sessions) /\
  TradeLog (runTradingSession config LoadError sch writeOk) = [] /\
  TotalTrades (runTradingSession config LoadError sch writeOk) = 0%nat /\
  Success (runTradingSession config LoadError sch writeOk) = true.
Proof.
  split; [unfold coordinator; apply length_map|].
  split; [apply count_failures|].
  unfold runTradingSession. rewrite (feed_failure_trade_log config sch Hsize).
  repeat split.
Qed.

Lemma coordinator_feed_failure_witness :
  0 < OrderSize (config_of 3000 5 12) /\
  Success (runTradingSession (config_of 3000 5 12) LoadError
             {| received := []; entry_at := Some 1%nat; exits_at := [1%nat] |} true) = true /\
  count_success false (coordinator three_sessions) = 0%nat.
Proof.
  assert (H : 0 < OrderSize (config_of 3000 5 12)) by reflexivity.
  destruct (coordinator_feed_failure three_sessions (config_of 3000 5 12)
              {| received := []; entry_at := Some 1%nat; exits_at := [1%nat] |} true H)
    as [_ [Hc [_ [_ Hs]]]].
  split; [exact H|]. split; [exact Hs|]. rewrite Hc. vm_compute. reflexivity.
Defined.

(* ------------------------------------------------------------------ *)
(** * Claims on queue saturation *)

(** C8 (as stated): only the snapshot intake drops on a full queue, the
    trade-signal and execution queues block.  Refuted: with the executions
    queue full, the broker executes a fillable market order, completes its
    step and drops the execution; with the signal queue full, the strategy's
    entry signal is dropped likewise. *)
Lemma queue_saturation_counterexample :
  fst (executeOrder 0 market_buy_one example_book) <> None /\
  length (buf full_executions) = cap full_executions /\
  broker_handle 0 market_buy_one full_executions example_book
    = (full_executions, example_book) /\
  length (buf full_signals) = cap full_signals /\
  strategy_entry (config_of 0 1 6) 0 full_signals = full_signals.
Proof. vm_compute. repeat split. discriminate. Qed.

(** C8 (amended): every send of a snapshot, a trade signal or an execution
    is a select with a default: on a full channel the feed's publication,
    the strategy's entry and exit signals, the broker's executions and the
    collector's forward to the strategy are dropped and the sender goes on
    (book unchanged): no trade-signal or execution send blocks. *)
Theorem queue_saturation_policy
    (updates : Chan OrderBookSnapshot) (signals : Chan TradeSignal)
    (executions inbox : Chan Execution)
    (Hu : (cap updates <= length (buf updates))%nat)
    (Hs : (cap signals <= length (buf signals))%nat)
    (He : (cap executions <= length (buf executions))%nat)
    (Hi : (cap inbox <= length (buf inbox))%nat) :
  (forall snapshot, feed_publish updates snapshot = updates) /\
  (forall config now, strategy_entry config now signals = signals) /\
  (forall position now, exit_watcher_fire position now signals = signals) /\
  (forall now signal ob, broker_handle now signal executions ob = (executions, ob)) /\
  (forall e, collector_forward inbox e = inbox).
Proof.
  assert (Hfull : forall A (c : Chan A) x, (cap c <= length (buf c))%nat -> try_send c x = (c, false)).
  { intros A c x Hc. unfold try_send.
    destruct (Nat.ltb_spec (length (buf c)) (cap c)); [lia | reflexivity]. }
  repeat split.
  - intro snapshot. unfold feed_publish. rewrite Hfull by exact Hu. reflexivity.
  - intros config now. unfold strategy_entry. rewrite Hfull by exact Hs. reflexivity.
  - intros [p|] now; simpl; [rewrite Hfull by exact Hs|]; reflexivity.
  - intros now signal ob. unfold broker_handle, bind at 1.
    pose proof (executeOrder_preserves_book ob now signal) as Hob.
    destruct (executeOrder now signal ob) as [[e|] ob'] eqn:E; simpl in Hob; subst ob';
      [rewrite Hfull by exact He|]; reflexivity.
  - intro e. unfold collector_forward. rewrite Hfull by exact Hi. reflexivity.
Qed.

Lemma queue_saturation_policy_witness :
  (cap full_executions <= length (buf full_executions))%nat /\
  broker_handle 0 market_buy_one full_executions example_book
    = (full_executions, example_book) /\
  strategy_entry (config_of 0 1 6) 0 full_signals = full_signals.
Proof.
  assert (Hu : (cap (Build_Chan ([] : list OrderBookSnapshot) 0)
                <= length (buf (Build_Chan ([] : list OrderBookSnapshot) 0)))%nat)
    by (simpl; lia).
  assert (Hs : (cap full_signals <= length (buf full_signals))%nat) by (vm_compute; lia).
  assert (He : (cap full_executions <= length (buf full_executions))%nat)
    by (vm_compute; lia).
  destruct (queue_saturation_policy _ full_signals full_executions full_executions
              Hu Hs He He) as [_ [H2 [_ [H4 _]]]].
  split; [exact He|]. split; [apply H4|]. apply H2.
Defined.

(* ------------------------------------------------------------------ *)
(** * The other order-book queries *)

Lemma sort_slice_head {A} (less : A -> A -> bool)
    (asym : forall a b, less a b = true -> less b a = false)
    (trans : forall a b c, less a b = false -> less b c = false -> less a c = false)
    (l : list A) :
  match sort_slice less l with
  | [] => l = []
  | h :: _ => In h l /\ Forall (fun y => less y h = false) l
  end.
Proof.
  destruct (sort_slice_spec A less asym trans l) as [Hs Hp].
  destruct (sort_slice less l) as [|h t] eqn:E.
  - apply Permutation_nil. exact Hp.
  - split; [apply (Permutation_in h Hp); left; reflexivity|].
    refine (Permutation_Forall Hp _).
    apply Sorted_StronglySorted in Hs;
      [|intros x y z H1 H2; exact (trans _ _ _ H2 H1)].
    apply StronglySorted_inv in Hs. destruct Hs as [_ Hall].
    constructor.
    + destruct (less h h) eqn:Eh; [|reflexivity].
      pose proof (asym h h Eh) as Eh'. congruence.
    + exact Hall.
Qed.

(** After [Update], [GetBestBid] reports the highest bid of the snapshot
    (absent exactly when the snapshot has no bid) and [GetBestAsk] the lowest
    ask (absent exactly when it has no ask). *)
Theorem Update_best_bid_ask (snapshot : OrderBookSnapshot) (ob : OrderBook) :
  match fst (GetBestBid (snd (Update snapshot ob))) with
  | (p, q, true) => In (lvl p q) (Bids snapshot) /\ Forall (fun b => Price b <= p) (Bids snapshot)
  | (_, _, false) => Bids snapshot = []
  end /\
  match fst (GetBestAsk (snd (Update snapshot ob))) with
  | (p, q, true) => In (lvl p q) (Asks snapshot) /\ Forall (fun a => p <= Price a) (Asks snapshot)
  | (_, _, false) => Asks snapshot = []
  end.
Proof.
  unfold GetBestBid, GetBestAsk, Update, put, bind, get, ret, get_best_bid, get_best_ask;
    simpl.
  pose proof (sort_slice_head bid_less
                (fun a b => Qltb_asym (Price b) (Price a))
                (fun a b c H1 H2 => Qltb_false_trans (Price c) (Price b) (Price a) H2 H1)
                (Bids snapshot)) as Hb.
  pose proof (sort_slice_head ask_less
                (fun a b => Qltb_asym (Price a) (Price b))
                (fun a b c H1 H2 => Qltb_false_trans (Price a) (Price b) (Price c) H1 H2)
                (Asks snapshot)) as Ha.
  split.
  - destruct (sort_slice bid_less (Bids snapshot)) as [|[p q] t]; [exact Hb|].
    destruct Hb as [Hin Hall]. split; [exact Hin|].
    revert Hall. apply Forall_impl. intros b H. unfold bid_less in H. qbool H. exact H.
  - destruct (sort_slice ask_less (Asks snapshot)) as [|[p q] t]; [exact Ha|].
    destruct Ha as [Hin Hall]. split; [exact Hin|].
    revert Hall. apply Forall_impl. intros a H. unfold ask_less in H. qbool H. exact H.
Qed.

(** After [Update(snapshot)], [GetSpread] and [GetMidPrice] are defined
    exactly when the snapshot has both a bid and an ask.  Then they are
    [a - b] and [(b + a) / 2], for [b] a highest-priced bid and [a] a
    lowest-priced ask of the snapshot; when no snapshot bid is priced above a
    snapshot ask, the spread is non-negative and the mid price lies between
    [b] and [a].  Otherwise both return [(0, false)]. *)
Theorem Update_spread_mid (snapshot : OrderBookSnapshot) (ob : OrderBook) :
  (Bids snapshot <> [] -> Asks snapshot <> [] ->
   exists b a,
     In b (Bids snapshot) /\ Forall (fun x => Price x <= Price b) (Bids snapshot) /\
     In a (Asks snapshot) /\ Forall (fun x => Price a <= Price x) (Asks snapshot) /\
     fst (GetSpread (snd (Update snapshot ob))) = (Price a - Price b, true) /\
     fst (GetMidPrice (snd (Update snapshot ob))) = ((Price b + Price a) / 2, true) /\
     (Forall (fun x => Forall (fun y => Price x <= Price y) (Asks snapshot)) (Bids snapshot) ->
      0 <= Price a - Price b /\ Price b <= (Price b + Price a) / 2 <= Price a)) /\
  (Bids snapshot = [] \/ Asks snapshot = [] ->
   fst (GetSpread (snd (Update snapshot ob))) = (0, false) /\
   fst (GetMidPrice (snd (Update snapshot ob))) = (0, false)).
Proof.
  unfold GetSpread, GetMidPrice, GetBestBid, GetBestAsk, Update, put, bind, get, ret,
    get_best_bid, get_best_ask; simpl.
  pose proof (sort_slice_head bid_less
                (fun a b => Qltb_asym (Price b) (Price a))
                (fun a b c H1 H2 => Qltb_false_trans (Price c) (Price b) (Price a) H2 H1)
                (Bids snapshot)) as Hb.
  pose proof (sort_slice_head ask_less
                (fun a b => Qltb_asym (Price a) (Price b))
                (fun a b c H1 H2 => Qltb_false_trans (Price a) (Price b) (Price c) H1 H2)
                (Asks snapshot)) as Ha.
  destruct (sort_slice bid_less (Bids snapshot)) as [|b tb];
    destruct (sort_slice ask_less (Asks snapshot)) as [|a ta]; simpl; split;
    try (intros; split; reflexivity);
    try (intros Hb' Ha'; exfalso; auto; fail).
  - intros _ _. destruct Hb as [Hinb Hallb], Ha as [Hina Halla].
    exists b, a. split; [exact Hinb|]. split.
    { revert Hallb. apply Forall_impl. intros x H. unfold bid_less in H. qbool H. exact H. }
    split; [exact Hina|]. split.
    { revert Halla. apply Forall_impl. intros x H. unfold ask_less in H. qbool H. exact H. }
    split; [reflexivity|]. split; [reflexivity|].
    intro Hx. rewrite Forall_forall in Hx.
    pose proof (proj1 (Forall_forall _ _) (Hx b Hinb) a Hina) as Hle. cbv beta in Hle.
    split; [lra|]. split.
    + apply Qle_shift_div_l; [reflexivity | lra].
    + apply Qle_shift_div_r; [reflexivity | lra].
  - intros [E|E]; rewrite E in *; simpl in *;
      [destruct Hb as [[] _] | destruct Ha as [[] _]].
Qed.

Lemma Update_spread_mid_witness :
  Bids example_snapshot <> [] /\ Asks example_snapshot <> [] /\
  exists b a,
    In b (Bids example_snapshot) /\ In a (Asks example_snapshot) /\
    fst (GetSpread (snd (Update example_snapshot example_book))) = (Price a - Price b, true) /\
    0 <= Price a - Price b.
Proof.
  assert (Hb : Bids example_snapshot <> []) by discriminate.
  assert (Ha : Asks example_snapshot <> []) by discriminate.
  split; [exact Hb|]. split; [exact Ha|].
  destruct (proj1 (Update_spread_mid example_snapshot example_book) Hb Ha)
    as [b [a [Hinb [_ [Hina [_ [Hs [_ Hx]]]]]]]].
  exists b, a. split; [exact Hinb|]. split; [exact Hina|]. split; [exact Hs|].
  apply Hx. vm_compute. repeat constructor; discriminate.
Defined.

(** [GetLiquidity(fromMid, pct)] ignores [fromMid]: it is [(0, 0)] when
    there is no mid price, and otherwise the pair
    [(GetCumulativeDepth(Buy, mid * (1 - pct)), GetCumulativeDepth(Sell, mid * (1 + pct)))]. *)
Theorem GetLiquidity_depths (ob : OrderBook) (fromMid pct : Q) :
  fst (GetLiquidity fromMid pct ob) =
  match fst (GetMidPrice ob) with
  | (mid, true) => (fst (GetCumulativeDepth SideBuy (mid * (1 - pct)) ob),
                    fst (GetCumulativeDepth SideSell (mid * (1 + pct)) ob))
  | (_, false) => (0, 0)
  end.
Proof.
  unfold GetLiquidity, GetCumulativeDepth, bind, get, ret.
  destruct (GetMidPrice ob) as [[mid [|]] ob'] eqn:E.
  - assert (Hob : ob' = ob).
    { unfold GetMidPrice, GetBestBid, GetBestAsk, bind, get, ret in E.
      destruct (get_best_bid ob) as [[? ?] [|]], (get_best_ask ob) as [[? ?] [|]];
        simpl in E; inversion E; reflexivity. }
    subst ob'. reflexivity.
  - reflexivity.
Qed.

Lemma qty_where_nonneg (ok : OrderBookEntry -> bool) (levels : list OrderBookEntry) :
  nonneg_levels levels -> 0 <= qty_where ok levels.
Proof.
  intro H. unfold qty_where. apply total_qty_nonneg.
  apply Forall_forall. intros x Hx. apply filter_In in Hx. destruct Hx as [Hx _].
  exact (proj1 (Forall_forall _ _) H x Hx).
Qed.

(** On an L2 book (non-negative quantities) the imbalance lies in
    [[-1, 1]]. *)
Theorem imbalance_bounded (ob : OrderBook)
    (Hasks : nonneg_levels (asks ob)) (Hbids : nonneg_levels (bids ob)) :
  -1 <= fst (GetOrderBookImbalance ob) <= 1.
Proof.
  remember (fst (GetOrderBookImbalance ob)) as r eqn:Er.
  unfold GetOrderBookImbalance, bind at 1 in Er.
  destruct (GetLiquidity 0 (1#100) ob) as [[bl al] ob'] eqn:E.
  assert (Hnn : 0 <= bl /\ 0 <= al).
  { unfold GetLiquidity, bind at 1 in E.
    destruct (GetMidPrice ob) as [[mid [|]] ob''] eqn:Em.
    - assert (Hob : ob'' = ob).
      { unfold GetMidPrice, GetBestBid, GetBestAsk, bind, get, ret in Em.
        destruct (get_best_bid ob) as [[? ?] [|]], (get_best_ask ob) as [[? ?] [|]];
          simpl in Em; inversion Em; reflexivity. }
      subst ob''. unfold bind, get, ret in E. simpl in E. inversion E; subst.
      rewrite (fold_sum_where (fun bid => Qle_bool (mid * (1 - (1#100))) (Price bid))).
      rewrite (fold_sum_where (fun ask => Qle_bool (Price ask) (mid * (1 + (1#100))))).
      pose proof (qty_where_nonneg (fun bid => Qle_bool (mid * (1 - (1#100))) (Price bid))
                    _ Hbids).
      pose proof (qty_where_nonneg (fun ask => Qle_bool (Price ask) (mid * (1 + (1#100))))
                    _ Hasks).
      split; lra.
    - unfold ret in E. inversion E; subst. split; lra. }
  destruct Hnn as [Hb Ha]. unfold ret in Er. simpl in Er.
  destruct (Qeq_bool (bl + al) 0) eqn:Ez; simpl in Er; subst r; [lra|].
  assert (Hpos : 0 < bl + al).
  { destruct (Qlt_le_dec 0 (bl + al)) as [H|H]; [exact H|].
    assert (bl + al == 0) by lra. apply Qeq_bool_iff in H0. congruence. }
  split.
  - apply Qle_shift_div_l; [exact Hpos | lra].
  - apply Qle_shift_div_r; [exact Hpos | lra].
Qed.

Lemma imbalance_bounded_witness :
  nonneg_levels (asks example_book) /\ nonneg_levels (bids example_book) /\
  -1 <= fst (GetOrderBookImbalance example_book) <= 1.
Proof.
  assert (Ha : nonneg_levels (asks example_book))
    by (vm_compute; repeat constructor; discriminate).
  assert (Hb : nonneg_levels (bids example_book))
    by (vm_compute; repeat constructor; discriminate).
  exact (conj Ha (conj Hb (imbalance_bounded example_book Ha Hb))).
Defined.

(* ------------------------------------------------------------------ *)
(** * Fill prices *)

Lemma fill_loop_break (levels : list OrderBookEntry) (r c : Q) :
  Qle_bool r 0 = true -> fill_loop levels r c = (r, c).
Proof. intro H. destruct levels; simpl; [reflexivity|]. rewrite H. reflexivity. Qed.

Lemma fill_loop_app (l1 l2 : list OrderBookEntry) (r c : Q) :
  fill_loop (l1 ++ l2) r c =
  let (r', c') := fill_loop l1 r c in fill_loop l2 r' c'.
Proof.
  revert r c. induction l1 as [|l rest IH]; intros r c; simpl; [reflexivity|].
  destruct (Qle_bool r 0) eqn:E; [symmetry; apply fill_loop_break; exact E | apply IH].
Qed.

(** The quantity taken from one level is in [[0, remaining]]. *)
Lemma fill_qty_range (l : OrderBookEntry) (r : Q) :
  0 <= Quantity l -> Qle_bool r 0 = false ->
  0 <= (if Qltb r (Quantity l) then r else Quantity l) <= r.
Proof.
  intros Hl Hr. qbool Hr.
  destruct (Qltb r (Quantity l)) eqn:E; qbool E; lra.
Qed.

Lemma fill_loop_upper (hi : Q) (levels : list OrderBookEntry) :
  nonneg_levels levels -> Forall (fun l => Price l <= hi) levels ->
  forall r c, snd (fill_loop levels r c) - c <= hi * (r - fst (fill_loop levels r c)).
Proof.
  induction 1 as [|l rest Hl Hrest IH]; intros Hp r c; simpl; [lra|].
  inversion Hp as [|? ? Hpl Hprest]; subst.
  destruct (Qle_bool r 0) eqn:Eb; simpl; [lra|].
  pose proof (fill_qty_range l r Hl Eb) as Hf.
  set (f := if Qltb r (Quantity l) then r else Quantity l) in *.
  specialize (IH Hprest (r - f) (c + f * Price l)).
  assert (Hm : 0 <= f * (hi - Price l)) by (apply Qmult_le_0_compat; lra).
  lra.
Qed.

Lemma fill_loop_lower (lo : Q) (levels : list OrderBookEntry) :
  nonneg_levels levels -> Forall (fun l => lo <= Price l) levels ->
  forall r c, lo * (r - fst (fill_loop levels r c)) <= snd (fill_loop levels r c) - c.
Proof.
  induction 1 as [|l rest Hl Hrest IH]; intros Hp r c; simpl; [lra|].
  inversion Hp as [|? ? Hpl Hprest]; subst.
  destruct (Qle_bool r 0) eqn:Eb; simpl; [lra|].
  pose proof (fill_qty_range l r Hl Eb) as Hf.
  set (f := if Qltb r (Quantity l) then r else Quantity l) in *.
  specialize (IH Hprest (r - f) (c + f * Price l)).
  assert (Hm : 0 <= f * (Price l - lo)) by (apply Qmult_le_0_compat; lra).
  lra.
Qed.

(** When the walk reports a fill, nothing is left to fill. *)
Lemma fill_loop_filled (levels : list OrderBookEntry) (q : Q) :
  nonneg_levels levels -> 0 < q ->
  Qltb 0 (fst (fill_loop levels q 0)) = false -> fst (fill_loop levels q 0) == 0.
Proof.
  intros Hl Hq E. qbool E.
  assert (Hr : q == Qmax 0 (q - 0)) by (rewrite Q.max_r by lra; ring).
  destruct (fill_loop_spec levels Hl q 0 0 q Hr) as [H1 _].
  pose proof (Q.le_max_l 0 (q - total_qty levels)). lra.
Qed.

Lemma fill_result_within (levels : list OrderBookEntry) (q lo hi p : Q) :
  0 < q -> nonneg_levels levels -> Forall (fun l => lo <= Price l <= hi) levels ->
  (let (remainingQty, totalCost) := fill_loop levels q 0 in
   if Qltb 0 remainingQty then (0, false) else (totalCost / q, true)) = (p, true) ->
  lo <= p <= hi.
Proof.
  intros Hq Hl Hr.
  pose proof (fill_loop_upper hi levels Hl
                (Forall_impl _ (fun l (H : lo <= Price l <= hi) => proj2 H) Hr) q 0) as Hu.
  pose proof (fill_loop_lower lo levels Hl
                (Forall_impl _ (fun l (H : lo <= Price l <= hi) => proj1 H) Hr) q 0) as Hd.
  pose proof (fill_loop_filled levels q Hl Hq) as Hz.
  destruct (fill_loop levels q 0) as [rem cost]; simpl in Hu, Hd, Hz.
  destruct (Qltb 0 rem) eqn:E; intro Hp; inversion Hp; subst p.
  specialize (Hz eq_refl).
  split.
  - apply Qle_shift_div_l; [exact Hq|]. rewrite Hz in Hd. lra.
  - apply Qle_shift_div_r; [exact Hq|]. rewrite Hz in Hu. lra.
Qed.

Lemma qty_where_le_total (ok : OrderBookEntry -> bool) (levels : list OrderBookEntry) :
  nonneg_levels levels -> qty_where ok levels <= total_qty levels.
Proof.
  unfold qty_where. induction 1 as [|l rest Hl Hrest IH]; simpl; [lra|].
  destruct (ok l); simpl; lra.
Qed.

(** For [q > 0] on non-negative levels, reaching [q] with the levels passing
    a price test means the unrestricted walk fills [q] too. *)
Lemma can_fill_loop_fillable (ok : OrderBookEntry -> bool) (levels : list OrderBookEntry) (q : Q) :
  0 < q -> nonneg_levels levels -> can_fill_loop ok q 0 levels = true ->
  snd (let (remainingQty, totalCost) := fill_loop levels q 0 in
       if Qltb 0 remainingQty then (0, false) else (totalCost / q, true)) = true.
Proof.
  intros Hq Hl Hc.
  apply (can_fill_loop_depth ok q levels Hl 0 Hq) in Hc.
  pose proof (qty_where_le_total ok levels Hl) as Ht.
  assert (Hr : q == Qmax 0 (q - 0)) by (rewrite Q.max_r by lra; ring).
  destruct (fill_loop_spec levels Hl q 0 0 q Hr) as [H1 _].
  destruct (fill_loop levels q 0) as [rem cost]; simpl in H1.
  rewrite Q.max_l in H1 by lra.
  destruct (Qltb 0 rem) eqn:E; [qbool E; lra | reflexivity].
Qed.

Lemma can_fill_loop_mono (ok ok' : OrderBookEntry -> bool) (levels : list OrderBookEntry) :
  nonneg_levels levels -> (forall l, ok l = true -> ok' l = true) ->
  forall q q' a a', q' <= q -> a <= a' ->
    can_fill_loop ok q a levels = true -> can_fill_loop ok' q' a' levels = true.
Proof.
  intros Hl Hok. induction Hl as [|l rest Hl Hrest IH]; intros q q' a a' Hq Ha; simpl;
    [discriminate|].
  destruct (ok l) eqn:E1.
  - rewrite (Hok l E1).
    destruct (Qle_bool q (a + Quantity l)) eqn:E2.
    + qbool E2. intros _.
      destruct (Qle_bool q' (a' + Quantity l)) eqn:E3; [reflexivity|]. qbool E3. lra.
    + destruct (Qle_bool q' (a' + Quantity l)); [reflexivity|].
      apply IH; lra.
  - intro Hc. destruct (ok' l).
    + destruct (Qle_bool q' (a' + Quantity l)); [reflexivity|].
      apply (IH q q' a (a' + Quantity l)); [lra | lra | exact Hc].
    + apply (IH q q' a a'); assumption.
Qed.

(** On non-negative levels, a fillable [GetFillPrice] returns a price
    between the lowest and the highest price of the side it walks (the
    asks for a Buy, the bids for a Sell). *)
Theorem GetFillPrice_within_levels (ob : OrderBook) (q : Q)
    (Hq : 0 < q) (Hasks : nonneg_levels (asks ob)) (Hbids : nonneg_levels (bids ob)) :
  (forall lo hi p, Forall (fun a => lo <= Price a <= hi) (asks ob) ->
     fst (GetFillPrice SideBuy q ob) = (p, true) -> lo <= p <= hi) /\
  (forall lo hi p, Forall (fun b => lo <= Price b <= hi) (bids ob) ->
     fst (GetFillPrice SideSell q ob) = (p, true) -> lo <= p <= hi).
Proof.
  unfold GetFillPrice, bind, get, ret, get_fill_price; simpl.
  split; intros lo hi p Hr; apply fill_result_within; assumption.
Qed.

Lemma GetFillPrice_within_levels_witness :
  0 < 5#2 /\ nonneg_levels (asks example_book) /\ nonneg_levels (bids example_book) /\
  101 <= 2026#20 <= 102.
Proof.
  assert (H0 : 0 < 5#2) by reflexivity.
  assert (Ha : nonneg_levels (asks example_book))
    by (vm_compute; repeat constructor; discriminate).
  assert (Hb : nonneg_levels (bids example_book))
    by (vm_compute; repeat constructor; discriminate).
  refine (conj H0 (conj Ha (conj Hb _))).
  apply (proj1 (GetFillPrice_within_levels example_book (5#2) H0 Ha Hb) 101 102).
  - vm_compute. repeat constructor; discriminate.
  - vm_compute. reflexivity.
Defined.

(** For a positive quantity on an L2 book, the price of a signal never
    decides whether [executeOrder] fills it: it returns an execution exactly
    when [GetFillPrice(side, quantity)] reports a fill, limit orders
    included. *)
Theorem executeOrder_fills_iff_market (ob : OrderBook) (now : nat) (signal : TradeSignal)
    (Hq : 0 < sigQuantity signal)
    (Hasks : nonneg_levels (asks ob)) (Hbids : nonneg_levels (bids ob)) :
  (exists e, fst (executeOrder now signal ob) = Some e) <->
  snd (fst (GetFillPrice (sigSide signal) (sigQuantity signal) ob)) = true.
Proof.
  assert (Hcf : can_fill ob (sigSide signal) (sigPrice signal) (sigQuantity signal) = true ->
                snd (get_fill_price ob (sigSide signal) (sigQuantity signal)) = true).
  { unfold can_fill, get_fill_price. destruct (sigSide signal); intro H;
      eapply can_fill_loop_fillable; eassumption. }
  unfold executeOrder, GetFillPrice, CanFill, bind, get, ret; simpl.
  destruct (Qeq_bool (sigPrice signal) 0).
  - destruct (get_fill_price ob (sigSide signal) (sigQuantity signal)) as [p [|]]; simpl;
      split; try (intros [e He]; discriminate He); eauto; discriminate.
  - destruct (can_fill ob (sigSide signal) (sigPrice signal) (sigQuantity signal)) eqn:Ec.
    + split; [intros _; exact (Hcf eq_refl) | intros _; eexists; reflexivity].
    + destruct (get_fill_price ob (sigSide signal) (sigQuantity signal)) as [p [|]]; simpl;
        split; try (intros [e He]; discriminate He); eauto; discriminate.
Qed.

Lemma executeOrder_fills_iff_market_witness :
  0 < 2 /\ nonneg_levels (asks example_book) /\ nonneg_levels (bids example_book) /\
  ((exists e, fst (executeOrder 0 {| sigSymbol := BTCUSD; sigSide := SideBuy; sigPrice := 50;
                                    sigQuantity := 2; sigTimestamp := 0 |} example_book) = Some e)
   <-> snd (fst (GetFillPrice SideBuy 2 example_book)) = true).
Proof.
  assert (H0 : 0 < 2) by reflexivity.
  assert (Ha : nonneg_levels (asks example_book))
    by (vm_compute; repeat constructor; discriminate).
  assert (Hb : nonneg_levels (bids example_book))
    by (vm_compute; repeat constructor; discriminate).
  refine (conj H0 (conj Ha (conj Hb _))).
  exact (executeOrder_fills_iff_market example_book 0
           {| sigSymbol := BTCUSD; sigSide := SideBuy; sigPrice := 50;
              sigQuantity := 2; sigTimestamp := 0 |} H0 Ha Hb).
Defined.

(** On an L2 book [CanFill] is monotone: raising a Buy's limit or lowering
    a Sell's, and lowering the quantity, never turns [true] into [false]. *)
Theorem CanFill_monotone (ob : OrderBook) (side : Side) (p p' q q' : Q)
    (Hasks : nonneg_levels (asks ob)) (Hbids : nonneg_levels (bids ob))
    (Hp : match side with SideBuy => p <= p' | SideSell => p' <= p end) (Hq : q' <= q) :
  fst (CanFill side p q ob) = true -> fst (CanFill side p' q' ob) = true.
Proof.
  unfold CanFill, bind, get, ret, can_fill; simpl.
  destruct side; apply can_fill_loop_mono; try assumption; try lra;
    intros l H; qbool H; apply Qle_bool_iff; lra.
Qed.

Lemma CanFill_monotone_witness :
  nonneg_levels (asks example_book) /\ nonneg_levels (bids example_book) /\
  203#2 <= 102 /\ 1 <= 2 /\
  fst (CanFill SideBuy (203#2) 2 example_book) = true /\
  fst (CanFill SideBuy 102 1 example_book) = true.
Proof.
  assert (Ha : nonneg_levels (asks example_book))
    by (vm_compute; repeat constructor; discriminate).
  assert (Hb : nonneg_levels (bids example_book))
    by (vm_compute; repeat constructor; discriminate).
  assert (Hp : 203#2 <= 102) by (vm_compute; discriminate).
  assert (Hq : 1 <= 2) by (vm_compute; discriminate).
  assert (Hf : fst (CanFill SideBuy (203#2) 2 example_book) = true) by (vm_compute; reflexivity).
  exact (conj Ha (conj Hb (conj Hp (conj Hq (conj Hf
           (CanFill_monotone example_book SideBuy (203#2) 102 2 1 Ha Hb Hp Hq Hf)))))).
Defined.

(** A list sorted by [R] splits into the levels passing [ok] followed by
    those failing it, when failing [ok] is inherited along [R]. *)
Lemma sorted_split (ok : OrderBookEntry -> bool) (R : OrderBookEntry -> OrderBookEntry -> Prop)
    (levels : list OrderBookEntry) :
  StronglySorted R levels -> (forall a b, R a b -> ok a = false -> ok b = false) ->
  exists l1 l2, levels = l1 ++ l2 /\ Forall (fun x => ok x = true) l1 /\
                Forall (fun x => ok x = false) l2.
Proof.
  intros Hs Hinh. induction Hs as [|x rest Hs IH Hx].
  - exists [], []. repeat constructor.
  - destruct (ok x) eqn:E.
    + destruct IH as [l1 [l2 [-> [H1 H2]]]]. exists (x :: l1), l2.
      split; [reflexivity|]. split; [constructor; assumption | exact H2].
    + exists [], (x :: rest). split; [reflexivity|]. split; [constructor|].
      constructor; [exact E|]. revert Hx. apply Forall_impl. intros y Hy. exact (Hinh x y Hy E).
Qed.

Lemma qty_where_split (ok : OrderBookEntry -> bool) (l1 l2 : list OrderBookEntry) :
  Forall (fun x => ok x = true) l1 -> Forall (fun x => ok x = false) l2 ->
  qty_where ok (l1 ++ l2) = total_qty l1.
Proof.
  intros H1 H2. unfold qty_where. rewrite filter_app.
  assert (E1 : filter ok l1 = l1).
  { induction H1 as [|x l Hx Hl IH]; simpl; [reflexivity|]. rewrite Hx, IH. reflexivity. }
  assert (E2 : filter ok l2 = []).
  { induction H2 as [|x l Hx Hl IH]; simpl; [reflexivity|]. rewrite Hx, IH. reflexivity. }
  rewrite E1, E2, app_nil_r. reflexivity.
Qed.

(** When the first levels alone hold [q], the walk stops inside them. *)
Lemma fill_on_prefix (l1 l2 : list OrderBookEntry) (q : Q) :
  nonneg_levels l1 -> 0 < q -> q <= total_qty l1 ->
  exists rem cost, fill_loop l1 q 0 = (rem, cost) /\ rem == 0 /\
    (let (remainingQty, totalCost) := fill_loop (l1 ++ l2) q 0 in
     if Qltb 0 remainingQty then (0, false) else (totalCost / q, true)) = (cost / q, true).
Proof.
  intros Hl Hq Ht.
  assert (Hr : q == Qmax 0 (q - 0)) by (rewrite Q.max_r by lra; ring).
  destruct (fill_loop_spec l1 Hl q 0 0 q Hr) as [H1 _].
  rewrite fill_loop_app.
  destruct (fill_loop l1 q 0) as [rem cost]; simpl in H1.
  rewrite Q.max_l in H1 by lra.
  exists rem, cost. split; [reflexivity|]. split; [exact H1|].
  rewrite fill_loop_break by (apply Qle_bool_iff; lra).
  destruct (Qltb 0 rem) eqn:E; [qbool E; lra | reflexivity].
Qed.

(** The sides of the book after [Update]: sorted, and non-negative when the
    snapshot's are. *)
Lemma update_book_sides (snapshot : OrderBookSnapshot) :
  StronglySorted (fun a b => Price b <= Price a) (bids (update_book snapshot)) /\
  StronglySorted (fun a b => Price a <= Price b) (asks (update_book snapshot)) /\
  (nonneg_levels (Bids snapshot) -> nonneg_levels (bids (update_book snapshot))) /\
  (nonneg_levels (Asks snapshot) -> nonneg_levels (asks (update_book snapshot))).
Proof.
  simpl.
  destruct (sort_slice_spec _ bid_less
              (fun a b => Qltb_asym (Price b) (Price a))
              (fun a b c H1 H2 => Qltb_false_trans (Price c) (Price b) (Price a) H2 H1)
              (Bids snapshot)) as [Hb Pb].
  destruct (sort_slice_spec _ ask_less
              (fun a b => Qltb_asym (Price a) (Price b))
              (fun a b c H1 H2 => Qltb_false_trans (Price a) (Price b) (Price c) H1 H2)
              (Asks snapshot)) as [Ha Pa].
  split; [|split; [|split]].
  - apply Sorted_StronglySorted; [intros x y z H1 H2; lra|].
    revert Hb. apply sorted_weaken. intros a b H. unfold bid_less in H. qbool H. exact H.
  - apply Sorted_StronglySorted; [intros x y z H1 H2; lra|].
    revert Ha. apply sorted_weaken. intros a b H. unfold ask_less in H. qbool H. exact H.
  - intro H. refine (Permutation_Forall (Permutation_sym Pb) H).
  - intro H. refine (Permutation_Forall (Permutation_sym Pa) H).
Qed.

(** After [Update], a limit order that [CanFill] accepts executes at its
    limit price, never better: the market fill for the same quantity is
    available and is at or below the limit for a Buy, at or above it for a
    Sell. *)
Theorem limit_order_no_price_improvement (snapshot : OrderBookSnapshot) (ob : OrderBook)
    (now : nat) (signal : TradeSignal)
    (Hbids : nonneg_levels (Bids snapshot)) (Hasks : nonneg_levels (Asks snapshot))
    (Hlimit : ~ sigPrice signal == 0) (Hq : 0 < sigQuantity signal)
    (Hfill : fst (CanFill (sigSide signal) (sigPrice signal) (sigQuantity signal)
                          (snd (Update snapshot ob))) = true) :
  fst (executeOrder now signal (snd (Update snapshot ob))) =
    Some {| exSymbol := sigSymbol signal; exSide := sigSide signal;
            exPrice := sigPrice signal; exQuantity := sigQuantity signal;
            exTimestamp := now |} /\
  exists m, fst (GetFillPrice (sigSide signal) (sigQuantity signal)
                              (snd (Update snapshot ob))) = (m, true) /\
    match sigSide signal with
    | SideBuy => m <= sigPrice signal
    | SideSell => sigPrice signal <= m
    end.
Proof.
  assert (Hne : Qeq_bool (sigPrice signal) 0 = false).
  { destruct (Qeq_bool (sigPrice signal) 0) eqn:E; [|reflexivity].
    apply Qeq_bool_iff in E. contradiction. }
  revert Hfill.
  unfold executeOrder, GetFillPrice, CanFill, Update, put, bind, get, ret; simpl.
  rewrite Hne. intro Hfill. rewrite Hfill. split; [reflexivity|].
  destruct (update_book_sides snapshot) as [Sb [Sa [Nb Na]]].
  specialize (Nb Hbids). specialize (Na Hasks).
  unfold get_fill_price. unfold can_fill in Hfill.
  destruct (sigSide signal).
  - destruct (sorted_split (fun ask => Qle_bool (Price ask) (sigPrice signal)) _ _ Sa)
      as [l1 [l2 [Hsplit [H1 H2]]]].
    { intros a b Hab Ha. apply Qle_bool_false in Ha.
      destruct (Qle_bool (Price b) (sigPrice signal)) eqn:E; [qbool E; lra | reflexivity]. }
    apply (can_fill_loop_depth _ _ _ Na 0 Hq) in Hfill.
    rewrite Hsplit, qty_where_split in Hfill by assumption.
    rewrite Hsplit in Na |- *. apply Forall_app in Na. destruct Na as [Na1 _].
    destruct (fill_on_prefix l1 l2 (sigQuantity signal) Na1 Hq ltac:(lra))
      as [rem [cost [Ef [Hz ->]]]].
    exists (cost / sigQuantity signal). split; [reflexivity|].
    pose proof (fill_loop_upper (sigPrice signal) l1 Na1
                  (Forall_impl _ (fun x (H : Qle_bool (Price x) (sigPrice signal) = true) =>
                                    proj1 (Qle_bool_iff _ _) H) H1)
                  (sigQuantity signal) 0) as Hu.
    rewrite Ef in Hu. simpl in Hu. rewrite Hz in Hu.
    apply Qle_shift_div_r; [exact Hq | lra].
  - destruct (sorted_split (fun bid => Qle_bool (sigPrice signal) (Price bid)) _ _ Sb)
      as [l1 [l2 [Hsplit [H1 H2]]]].
    { intros a b Hab Ha. apply Qle_bool_false in Ha.
      destruct (Qle_bool (sigPrice signal) (Price b)) eqn:E; [qbool E; lra | reflexivity]. }
    apply (can_fill_loop_depth _ _ _ Nb 0 Hq) in Hfill.
    rewrite Hsplit, qty_where_split in Hfill by assumption.
    rewrite Hsplit in Nb |- *. apply Forall_app in Nb. destruct Nb as [Nb1 _].
    destruct (fill_on_prefix l1 l2 (sigQuantity signal) Nb1 Hq ltac:(lra))
      as [rem [cost [Ef [Hz ->]]]].
    exists (cost / sigQuantity signal). split; [reflexivity|].
    pose proof (fill_loop_lower (sigPrice signal) l1 Nb1
                  (Forall_impl _ (fun x (H : Qle_bool (sigPrice signal) (Price x) = true) =>
                                    proj1 (Qle_bool_iff _ _) H) H1)
                  (sigQuantity signal) 0) as Hd.
    rewrite Ef in Hd. simpl in Hd. rewrite Hz in Hd.
    apply Qle_shift_div_l; [exact Hq | lra].
Qed.

Lemma limit_order_no_price_improvement_witness :
  nonneg_levels (Bids example_snapshot) /\ nonneg_levels (Asks example_snapshot) /\
  ~ sigPrice limit_buy_102 == 0 /\ 0 < sigQuantity limit_buy_102 /\
  fst (CanFill SideBuy 102 2 (snd (Update example_snapshot New))) = true /\
  fst (executeOrder 0 limit_buy_102 (snd (Update example_snapshot New))) =
    Some {| exSymbol := BTCUSD; exSide := SideBuy; exPrice := 102; exQuantity := 2;
            exTimestamp := 0 |} /\
  fst (GetFillPrice SideBuy 2 (snd (Update example_snapshot New))) = (405#4, true).
Proof.
  assert (Hb : nonneg_levels (Bids example_snapshot))
    by (vm_compute; repeat constructor; discriminate).
  assert (Ha : nonneg_levels (Asks example_snapshot))
    by (vm_compute; repeat constructor; discriminate).
  assert (Hl : ~ sigPrice limit_buy_102 == 0) by (vm_compute; discriminate).
  assert (Hq : 0 < sigQuantity limit_buy_102) by reflexivity.
  assert (Hf : fst (CanFill SideBuy 102 2 (snd (Update example_snapshot New))) = true)
    by (vm_compute; reflexivity).
  destruct (limit_order_no_price_improvement example_snapshot New 0 limit_buy_102
              Hb Ha Hl Hq Hf) as [He _].
  refine (conj Hb (conj Ha (conj Hl (conj Hq (conj Hf (conj He _)))))).
  vm_compute. reflexivity.
Defined.

(* ------------------------------------------------------------------ *)
(** * The imbalance of a one-sided book *)

(** A book with no bid or no ask has no mid price, so [GetLiquidity]
    returns [(0, 0)] and [GetOrderBookImbalance] reports 0, the value of a
    balanced book, although all its liquidity sits on one side. *)
Theorem imbalance_one_sided (ob : OrderBook) (Hside : bids ob = [] \/ asks ob = []) :
  fst (GetOrderBookImbalance ob) = 0.
Proof.
  unfold GetOrderBookImbalance, GetLiquidity, GetMidPrice, GetBestBid, GetBestAsk,
    bind, get, ret, get_best_bid, get_best_ask; simpl.
  destruct Hside as [H|H]; rewrite H; [destruct (asks ob)|destruct (bids ob)];
    reflexivity.
Qed.

Lemma imbalance_one_sided_witness :
  bids {| symbol := BTCUSD; bids := [lvl 100 5]; asks := []; lastUpdated := 0 |} = [lvl 100 5] /\
  asks {| symbol := BTCUSD; bids := [lvl 100 5]; asks := []; lastUpdated := 0 |} = [] /\
  fst (GetOrderBookImbalance
         {| symbol := BTCUSD; bids := [lvl 100 5]; asks := []; lastUpdated := 0 |}) = 0.
Proof.
  split; [reflexivity|]. split; [reflexivity|].
  apply imbalance_one_sided. right. reflexivity.
Defined.

(* ------------------------------------------------------------------ *)
(** * The broker loop and the engine *)

Lemma try_send_cases {A} (c : Chan A) (x : A) :
  cap (fst (try_send c x)) = cap c /\
  (buf (fst (try_send c x)) = buf c ++ [x] /\ (length (buf c) < cap c)%nat \/
   fst (try_send c x) = c).
Proof.
  unfold try_send. destruct (Nat.ltb_spec (length (buf c)) (cap c)); simpl; auto.
Qed.

Lemma broker_handle_step (now : nat) (signal : TradeSignal) (executions : Chan Execution)
    (ob : OrderBook) :
  snd (broker_handle now signal executions ob) = ob /\
  (fst (broker_handle now signal executions ob) = executions \/
   exists e, fst (executeOrder now signal ob) = Some e /\
             fst (broker_handle now signal executions ob) = fst (try_send executions e)).
Proof.
  pose proof (executeOrder_preserves_book ob now signal) as Hb.
  unfold broker_handle, bind.
  destruct (executeOrder now signal ob) as [[e|] ob'] eqn:E; simpl in Hb; subst ob';
    unfold ret; simpl.
  - split; [reflexivity|]. right. exists e. split; reflexivity.
  - split; [reflexivity|]. left. reflexivity.
Qed.

(** [Broker.Start] over a sequence of signals leaves the book as it was,
    only appends to the execution channel (at most one execution per signal,
    each with the side and quantity of a received signal) and never
    overfills it: executions that find the channel full are dropped. *)
Theorem broker_run_channel (now : nat) (signals : list TradeSignal)
    (executions : Chan Execution) (ob : OrderBook)
    (Hcap : (length (buf executions) <= cap executions)%nat) :
  snd (broker_run now signals executions ob) = ob /\
  cap (fst (broker_run now signals executions ob)) = cap executions /\
  (length (buf (fst (broker_run now signals executions ob))) <= cap executions)%nat /\
  exists added,
    buf (fst (broker_run now signals executions ob)) = buf executions ++ added /\
    (length added <= length signals)%nat /\
    Forall (fun e => exists s, In s signals /\ exSide e = sigSide s /\
                               exQuantity e = sigQuantity s) added.
Proof.
  revert now executions Hcap.
  induction signals as [|s rest IH]; intros now executions Hcap.
  - simpl. unfold ret. simpl. repeat split; [exact Hcap|].
    exists []. rewrite app_nil_r. repeat constructor.
  - simpl. unfold bind.
    destruct (broker_handle_step now s executions ob) as [Hob Hstep].
    destruct (broker_handle now s executions ob) as [ex' ob'] eqn:E.
    simpl in Hob, Hstep. subst ob'.
    assert (Hex : cap ex' = cap executions /\ (length (buf ex') <= cap executions)%nat /\
                  exists added, buf ex' = buf executions ++ added /\ (length added <= 1)%nat /\
                    Forall (fun e => exSide e = sigSide s /\ exQuantity e = sigQuantity s) added).
    { destruct Hstep as [->|[e [He ->]]].
      - repeat split; [exact Hcap|]. exists []. rewrite app_nil_r. simpl. repeat constructor.
      - destruct (executeOrder_fields _ _ _ _ He) as [Hs Hq].
        destruct (try_send_cases executions e) as [Hc [[Hb Hl]|Heq]].
        + split; [exact Hc|]. rewrite Hb, length_app. simpl. split; [lia|].
          exists [e]. split; [reflexivity|]. split; [simpl; lia|]. repeat constructor; assumption.
        + rewrite Heq. repeat split; [exact Hcap|]. exists []. rewrite app_nil_r.
          simpl. repeat constructor. }
    destruct Hex as [Hc [Hl [a1 [Hb1 [Hn1 Hf1]]]]].
    destruct (IH (S now) ex' ltac:(lia)) as [H1 [H2 [H3 [a2 [Hb2 [Hn2 Hf2]]]]]].
    rewrite Hc in H2, H3. split; [exact H1|]. split; [exact H2|]. split; [exact H3|].
    exists (a1 ++ a2). rewrite Hb2, Hb1, app_assoc. split; [reflexivity|].
    rewrite length_app. simpl. split; [lia|].
    apply Forall_app. split.
    + revert Hf1. apply Forall_impl. intros e [He1 He2]. exists s. auto.
    + revert Hf2. apply Forall_impl. intros e [s' [Hin He]]. exists s'. auto.
Qed.

Lemma broker_run_channel_witness :
  (length (buf (Build_Chan ([] : list Execution) 1)) <= cap (Build_Chan ([] : list Execution) 1))%nat /\
  (length (buf (fst (broker_run 0 [market_buy_one; market_buy_one]
                       (Build_Chan [] 1) example_book))) <= 1)%nat.
Proof.
  assert (H : (length (buf (Build_Chan ([] : list Execution) 1))
               <= cap (Build_Chan ([] : list Execution) 1))%nat) by (simpl; lia).
  split; [exact H|].
  exact (proj1 (proj2 (proj2 (broker_run_channel 0 [market_buy_one; market_buy_one]
                                 (Build_Chan [] 1) example_book H)))).
Defined.

(** [Engine.Start] keeps no trace of earlier snapshots: each [Update]
    replaces both sides, so after a run of snapshots the book is the one
    built from the last of them alone, whatever the starting book. *)
Theorem engine_last_snapshot_wins (earlier : list OrderBookSnapshot)
    (snapshot : OrderBookSnapshot) (ob : OrderBook) :
  snd (engine_apply (earlier ++ [snapshot]) ob) = update_book snapshot.
Proof.
  revert ob. induction earlier as [|s rest IH]; intro ob; simpl;
    unfold bind, Update, put, ret; simpl; [reflexivity|].
  apply IH.
Qed.

(* ------------------------------------------------------------------ *)
(** * Exit watchers *)

Lemma fire_all_open (config : StrategyConfig) (ws : list ExitWatcher) (p : Position)
    (stamp : ExitWatcher -> nat) (signals : Chan TradeSignal) :
  (length (buf signals) + length ws <= cap signals)%nat ->
  buf (fire_all config ws (Some p) stamp signals) =
    buf signals ++ map (fun w => exit_signal p (stamp w)) ws.
Proof.
  unfold fire_all. revert signals.
  induction ws as [|w rest IH]; intros signals Hroom; simpl in Hroom |- *;
    [rewrite app_nil_r; reflexivity|].
  assert (Hw : watcher_fire config w (Some p) (stamp w) signals
               = Build_Chan (buf signals ++ [exit_signal p (stamp w)]) (cap signals)).
  { destruct w; simpl; unfold try_send;
      destruct (Nat.ltb_spec (length (buf signals)) (cap signals)); simpl;
      reflexivity || lia. }
  rewrite Hw, IH by (simpl; rewrite length_app; simpl; lia). simpl.
  rewrite <- app_assoc. reflexivity.
Qed.

Lemma fire_all_closed (config : StrategyConfig) (ws : list ExitWatcher)
    (stamp : ExitWatcher -> nat) (signals : Chan TradeSignal) :
  fire_all config ws None stamp signals = signals.
Proof.
  unfold fire_all. revert signals.
  induction ws as [|w rest IH]; intro signals; simpl; [reflexivity|].
  destruct w; apply IH.
Qed.

(** [scheduleExitSignals] arms the time-based watcher always and the
    take-profit and stop-loss ones when their thresholds are positive.
    Whatever order their sleeps end in ([ws], a permutation of the armed
    watchers) and whatever time each one stamps, each sends a market Sell
    of the whole position, so with room in the signal channel the broker
    receives one such Sell per armed watcher, up to three, differing only in
    their timestamps.  Without a position nothing is armed or sent. *)
Theorem exit_watchers_duplicate_sells (config : StrategyConfig) (position : option Position)
    (ws : list ExitWatcher) (stamp : ExitWatcher -> nat) (signals : Chan TradeSignal)
    (Hord : Permutation ws (scheduled_watchers config position))
    (Hroom : (length (buf signals) + 3 <= cap signals)%nat) :
  length ws =
    match position with
    | None => 0%nat
    | Some _ => (1 + (if Qltb 0 (TakeProfit config) then 1 else 0)
                   + (if Qltb 0 (StopLoss config) then 1 else 0))%nat
    end /\
  buf (fire_all config ws position stamp signals) =
    buf signals ++ match position with
                   | None => []
                   | Some p => map (fun w => exit_signal p (stamp w)) ws
                   end.
Proof.
  assert (Hlen : length ws =
    match position with
    | None => 0%nat
    | Some _ => (1 + (if Qltb 0 (TakeProfit config) then 1 else 0)
                   + (if Qltb 0 (StopLoss config) then 1 else 0))%nat
    end).
  { rewrite (Permutation_length Hord). destruct position as [p|]; [|reflexivity].
    simpl. rewrite length_app.
    destruct (Qltb 0 (TakeProfit config)), (Qltb 0 (StopLoss config)); reflexivity. }
  split; [exact Hlen|].
  destruct position as [p|].
  - apply fire_all_open. rewrite Hlen.
    destruct (Qltb 0 (TakeProfit config)), (Qltb 0 (StopLoss config)); simpl in *; lia.
  - rewrite fire_all_closed, app_nil_r. reflexivity.
Qed.

(** The stamps of a run where the take-profit watcher wakes at 2s, the
    stop-loss one at 3s and the time-based one at [MaxHoldTime] = 8s (times in seconds). *)
Definition example_stamp (w : ExitWatcher) : nat :=
  match w with
  | TimeExit => 8
  | TakeProfitExit => 2
  | StopLossExit => 3
  end.

Lemma exit_watchers_duplicate_sells_witness :
  Permutation [TakeProfitExit; StopLossExit; TimeExit]
    (scheduled_watchers (config_of 0 (5#2) 8) (Some open_position)) /\
  (length (buf (Build_Chan ([] : list TradeSignal) 10)) + 3
     <= cap (Build_Chan ([] : list TradeSignal) 10))%nat /\
  buf (fire_all (config_of 0 (5#2) 8) [TakeProfitExit; StopLossExit; TimeExit]
                (Some open_position) example_stamp (Build_Chan [] 10)) =
    [exit_signal open_position 2; exit_signal open_position 3;
     exit_signal open_position 8].
Proof.
  assert (Hp : Permutation [TakeProfitExit; StopLossExit; TimeExit]
                 (scheduled_watchers (config_of 0 (5#2) 8) (Some open_position))).
  { vm_compute. symmetry. apply (Permutation_cons_append [TakeProfitExit; StopLossExit] TimeExit). }
  assert (H : (length (buf (Build_Chan ([] : list TradeSignal) 10)) + 3
               <= cap (Build_Chan ([] : list TradeSignal) 10))%nat) by (simpl; lia).
  split; [exact Hp|]. split; [exact H|].
  rewrite (proj2 (exit_watchers_duplicate_sells (config_of 0 (5#2) 8) (Some open_position)
                    _ example_stamp (Build_Chan [] 10) Hp H)).
  reflexivity.
Defined.

(* ------------------------------------------------------------------ *)
(** * [OrderBook.String()] *)

Lemma firstn_S_snoc {A} (l : list A) (k : nat) (d : A) :
  (k < length l)%nat -> firstn (S k) l = firstn k l ++ [nth k l d].
Proof.
  revert k. induction l as [|x xs IH]; intros k Hk; simpl in Hk; [lia|].
  destruct k as [|k]; [reflexivity|].
  change (firstn (S (S k)) (x :: xs)) with (x :: firstn (S k) xs).
  rewrite (IH k) by lia. reflexivity.
Qed.

Lemma ask_display_spec (asks : list OrderBookEntry) (k fuel : nat) :
  (k <= length asks)%nat -> (k < fuel)%nat ->
  ask_display asks (Z.of_nat k - 1)%Z fuel =
  map level_line (rev (skipn (length asks - 5) (firstn k asks))).
Proof.
  revert fuel. induction k as [|k IH]; intros fuel Hk Hf.
  - destruct fuel as [|fuel]; [lia|]. simpl. rewrite skipn_nil. reflexivity.
  - destruct fuel as [|fuel]; [lia|].
    replace (Z.of_nat (S k) - 1)%Z with (Z.of_nat k) by lia.
    cbn [ask_display].
    rewrite (firstn_S_snoc asks k {| Price := 0; Quantity := 0 |}) by lia.
    rewrite skipn_app, length_firstn, Nat.min_l by lia.
    destruct (Z.leb_spec (Z.of_nat (length asks) - 5) (Z.of_nat k)) as [Hle|Hgt].
    + rewrite andb_true_r.
      assert (Hz : (0 <=? Z.of_nat k)%Z = true) by (apply Z.leb_le; lia).
      rewrite Hz.
      replace (length asks - 5 - k)%nat with 0%nat by lia. simpl.
      rewrite rev_app_distr. cbn [rev app map]. rewrite Nat2Z.id.
      rewrite (IH fuel) by lia. reflexivity.
    + rewrite andb_false_r.
      rewrite skipn_all2 by (rewrite length_firstn; lia).
      rewrite skipn_all2 by (simpl; lia). reflexivity.
Qed.

Lemma skipn_nth_cons {A} (l : list A) (i : nat) (d : A) :
  (i < length l)%nat -> skipn i l = nth i l d :: skipn (S i) l.
Proof.
  revert i. induction l as [|x xs IH]; intros i Hi; simpl in Hi; [lia|].
  destruct i as [|i]; [reflexivity|]. simpl. apply IH. lia.
Qed.

Lemma bid_display_spec (bids : list OrderBookEntry) (fuel i : nat) :
  (length bids < i + fuel)%nat ->
  bid_display bids i fuel = map level_line (firstn (5 - i) (skipn i bids)).
Proof.
  revert i. induction fuel as [|fuel IH]; intros i Hf; cbn [bid_display].
  - rewrite skipn_all2 by lia. rewrite firstn_nil. reflexivity.
  - destruct (Nat.ltb_spec i (length bids)) as [H1|H1];
      destruct (Nat.ltb_spec i 5) as [H2|H2]; cbn [andb].
    + rewrite (IH (S i)) by lia.
      rewrite (skipn_nth_cons bids i {| Price := 0; Quantity := 0 |}) by exact H1.
      replace (5 - i)%nat with (S (5 - S i)) by lia. reflexivity.
    + replace (5 - i)%nat with 0%nat by lia. reflexivity.
    + rewrite skipn_all2 by lia. rewrite firstn_nil. reflexivity.
    + rewrite skipn_all2 by lia. rewrite firstn_nil. reflexivity.
Qed.

(** [String()] prints the header, then under ASKS the LAST five stored asks
    from the last one down (after [Update], the five highest-priced asks, so
    with more than five asks the best ask is not shown), the spread line
    only when both sides are non-empty, and under BIDS the first five stored
    bids (the five best). *)
Theorem String_lines (ob : OrderBook) :
  fst (String ob) =
  [HeaderLine (symbol ob) (lastUpdated ob); AsksLabel]
  ++ map level_line (rev (skipn (length (asks ob) - 5) (asks ob)))
  ++ match bids ob, asks ob with
     | b :: _, a :: _ => [SpreadLine (Price a - Price b)]
     | _, _ => []
     end
  ++ [BidsLabel]
  ++ map level_line (firstn 5 (bids ob)).
Proof.
  unfold String, bind, get, ret, book_string. cbn [fst].
  rewrite (ask_display_spec (asks ob) (length (asks ob)) (S (length (asks ob)))) by lia.
  rewrite firstn_all.
  rewrite (bid_display_spec (bids ob) (S (length (bids ob))) 0) by lia.
  unfold GetSpread, GetBestBid, GetBestAsk, bind, get, ret, get_best_bid, get_best_ask.
  destruct (bids ob), (asks ob); reflexivity.
Qed.

(* ------------------------------------------------------------------ *)
(** * The summary of [runConcurrentSessions] and the session trade log *)

Lemma summarize_fold (results : list SessionResults) (n t : nat) (pnl : Q) :
  let '(n', t', pnl') :=
    fold_left (fun (acc : nat * nat * Q) r =>
      let '(successfulSessions, totalTrades, totalPnL) := acc in
      if Success r
      then (S successfulSessions, (totalTrades + TotalTrades r)%nat, totalPnL + TotalPnL r)
      else acc) results (n, t, pnl) in
  n' = (n + length (filter Success results))%nat /\
  t' = (t + list_sum (map TotalTrades (filter Success results)))%nat /\
  pnl' == pnl + fold_right Qplus 0 (map TotalPnL (filter Success results)).
Proof.
  revert n t pnl. induction results as [|r rest IH]; intros n t pnl; simpl.
  - split; [lia|]. split; [lia | ring].
  - destruct (Success r); simpl.
    + specialize (IH (S n) (t + TotalTrades r)%nat (pnl + TotalPnL r)).
      destruct (fold_left _ rest _) as [[n' t'] pnl'].
      destruct IH as [H1 [H2 H3]]. split; [lia|]. split; [lia|]. rewrite H3. ring.
    + apply IH.
Qed.

(** The summary counts, adds up the trades and adds up the P&L of the
    successful results only: a result with [Success = false] contributes
    neither its trades nor its P&L, although its trades were executed. *)
Theorem summarize_successful_only (results : list SessionResults) :
  let '(successfulSessions, totalTrades, totalPnL) := summarize results in
  successfulSessions = count_success true results /\
  totalTrades = list_sum (map TotalTrades (filter Success results)) /\
  totalPnL == fold_right Qplus 0 (map TotalPnL (filter Success results)).
Proof.
  unfold summarize, count_success.
  pose proof (summarize_fold results 0 0 0) as H.
  destruct (fold_left _ results _) as [[n t] pnl].
  destruct H as [H1 [H2 H3]]. simpl in H1, H2.
  assert (Hf : filter (fun r => Bool.eqb (Success r) true) results = filter Success results).
  { apply filter_ext. intro r. destruct (Success r); reflexivity. }
  rewrite Hf. split; [exact H1|]. split; [exact H2|]. rewrite H3. ring.
Qed.

Lemma flat_map_at_most_one {A B} (f : A -> list B) (l : list A) :
  (forall x, (length (f x) <= 1)%nat) -> (length (flat_map f l) <= length l)%nat.
Proof.
  intro Hf. induction l as [|x xs IH]; simpl; [lia|].
  rewrite length_app. specialize (Hf x). lia.
Qed.

(** The trade log of a session is empty or the entry Buy followed by Sell
    exits of the Buy's quantity, one at most per exit signal that reached
    the broker: the session never holds more than one entry. *)
Theorem session_trade_log_bound (config : StrategyConfig) (fd : FeedData) (sch : Schedule)
    (writeOk : bool) :
  (TradeLog (runTradingSession config fd sch writeOk) = [] \/
   exists buy rest, TradeLog (runTradingSession config fd sch writeOk) = buy :: rest /\
     exSide buy = SideBuy /\
     Forall (fun e => exSide e = SideSell /\ exQuantity e = exQuantity buy) rest) /\
  (length (TradeLog (runTradingSession config fd sch writeOk)) <= S (length (exits_at sch)))%nat.
Proof.
  destruct (materialize_totals (session_trade_log config fd sch) writeOk) as [_ [_ Hlog]].
  unfold runTradingSession. rewrite Hlog.
  split; [apply session_trade_log_shape|].
  unfold session_trade_log.
  destruct (entry_at sch) as [k|]; [|simpl; lia].
  destruct (fst (executeOrder 0 (entry_signal config 0) _)) as [buy|]; [|simpl; lia].
  destruct (handle_execution None buy) as [position|]; simpl; [|lia].
  apply le_n_S. apply flat_map_at_most_one.
  intro j. destruct (fst (executeOrder _ _ _)); simpl; lia.
Qed.

(* ------------------------------------------------------------------ *)
(** * Sessions without ask liquidity *)

Lemma engine_apply_result (received : list OrderBookSnapshot) (ob : OrderBook) :
  snd (engine_apply received ob) = ob \/
  exists s, In s received /\ snd (engine_apply received ob) = update_book s.
Proof.
  revert ob. induction received as [|s rest IH]; intro ob; simpl;
    unfold bind, Update, put, ret; simpl; [left; reflexivity|].
  right. destruct (IH (update_book s)) as [H|[s' [Hin H]]].
  - exists s. auto.
  - exists s'. auto.
Qed.

Lemma received_snapshots_in (snaps : list OrderBookSnapshot) (ok : list bool)
    (s : OrderBookSnapshot) :
  In s (received_snapshots snaps ok) -> In s snaps.
Proof.
  revert ok. induction snaps as [|x xs IH]; intros ok Hin; simpl in Hin; [contradiction|].
  destruct ok as [|b ok']; [|destruct b]; simpl in Hin;
    try (destruct Hin as [<-|Hin]; [left; reflexivity|]); right; eapply IH; exact Hin.
Qed.

Lemma book_after_from (received : list OrderBookSnapshot) (k : nat) :
  book_after received k = New \/
  exists s, In s received /\ book_after received k = update_book s.
Proof.
  unfold book_after.
  destruct (engine_apply_result (firstn k received) New) as [H|[s [Hin H]]];
    [left; exact H|].
  right. exists s. split; [|exact H].
  rewrite <- (firstn_skipn k received). apply in_or_app. left. exact Hin.
Qed.

Lemma total_qty_perm (l l' : list OrderBookEntry) :
  Permutation l l' -> total_qty l == total_qty l'.
Proof.
  induction 1; simpl; try ring; [rewrite IHPermutation; ring | lra].
Qed.

(** A Buy of [q > 0] against asks holding less than [q] is rejected,
    whatever its price. *)
Lemma executeOrder_short_buy (ob : OrderBook) (now : nat) (signal : TradeSignal) :
  sigSide signal = SideBuy -> 0 < sigQuantity signal -> nonneg_levels (asks ob) ->
  total_qty (asks ob) < sigQuantity signal ->
  fst (executeOrder now signal ob) = None.
Proof.
  intros Hs Hq Hn Ht.
  assert (Hr : sigQuantity signal == Qmax 0 (sigQuantity signal - 0))
    by (rewrite Q.max_r by lra; ring).
  assert (Hfp : snd (get_fill_price ob SideBuy (sigQuantity signal)) = false).
  { unfold get_fill_price.
    destruct (fill_loop_spec (asks ob) Hn (sigQuantity signal) 0 0 (sigQuantity signal) Hr)
      as [H1 _].
    destruct (fill_loop (asks ob) (sigQuantity signal) 0) as [rem cost]; simpl in H1.
    rewrite Q.max_r in H1 by lra.
    destruct (Qltb 0 rem) eqn:E; [reflexivity | qbool E; lra]. }
  assert (Hcf : can_fill ob SideBuy (sigPrice signal) (sigQuantity signal) = false).
  { destruct (can_fill ob SideBuy (sigPrice signal) (sigQuantity signal)) eqn:E;
      [|reflexivity].
    unfold can_fill in E. apply (can_fill_loop_fillable _ _ _ Hq Hn) in E.
    unfold get_fill_price in Hfp. rewrite E in Hfp. discriminate. }
  destruct (get_fill_price ob SideBuy (sigQuantity signal)) as [p b] eqn:Ef.
  simpl in Hfp. subst b.
  unfold executeOrder, GetFillPrice, CanFill, bind, get, ret. rewrite Hs. cbv beta.
  destruct (Qeq_bool (sigPrice signal) 0); rewrite ?Hcf, Ef; reflexivity.
Qed.

(** A session whose feed never carries enough ask quantity for the entry
    (every snapshot's asks total less than [OrderSize > 0]) makes no trade,
    whatever its entry price, and reports success with no trade and no
    P&L. *)
Theorem session_without_liquidity (config : StrategyConfig) (fd : FeedData) (sch : Schedule)
    (writeOk : bool) (Hsize : 0 < OrderSize config)
    (Hnn : Forall (fun s => nonneg_levels (Asks s)) (feed_snapshots fd))
    (Hshort : Forall (fun s => total_qty (Asks s) < OrderSize config) (feed_snapshots fd)) :
  TradeLog (runTradingSession config fd sch writeOk) = [] /\
  TotalTrades (runTradingSession config fd sch writeOk) = 0%nat /\
  TotalPnL (runTradingSession config fd sch writeOk) == 0 /\
  Success (runTradingSession config fd sch writeOk) = true.
Proof.
  assert (Hlog : session_trade_log config fd sch = []).
  { unfold session_trade_log.
    destruct (entry_at sch) as [k|]; [|reflexivity].
    destruct (entry_signal_fields config 0) as [Hs Hq].
    destruct (book_after_from (received_snapshots (feed_snapshots fd) (received sch)) k)
      as [->|[s [Hin ->]]].
    - rewrite executeOrder_empty_book by (rewrite Hq; exact Hsize). reflexivity.
    - apply received_snapshots_in in Hin.
      pose proof (proj1 (Forall_forall _ _) Hnn s Hin) as Hn.
      pose proof (proj1 (Forall_forall _ _) Hshort s Hin) as Ht.
      destruct (update_book_sides s) as [_ [_ [_ Na]]].
      rewrite executeOrder_short_buy; [reflexivity | exact Hs | rewrite Hq; exact Hsize
                                       | exact (Na Hn) |].
      rewrite Hq. simpl.
      destruct (sort_slice_spec _ ask_less
                  (fun a b => Qltb_asym (Price a) (Price b))
                  (fun a b c H1 H2 => Qltb_false_trans (Price a) (Price b) (Price c) H1 H2)
                  (Asks s)) as [_ Pa].
      rewrite (total_qty_perm _ _ Pa). exact Ht. }
  unfold runTradingSession. rewrite Hlog.
  unfold materialize. simpl. repeat split; reflexivity.
Qed.

Lemma session_without_liquidity_witness :
  0 < OrderSize (config_of 0 10 8) /\
  Forall (fun s => nonneg_levels (Asks s)) (feed_snapshots (Loaded [example_snapshot])) /\
  Forall (fun s => total_qty (Asks s) < OrderSize (config_of 0 10 8))
         (feed_snapshots (Loaded [example_snapshot])) /\
  TradeLog (runTradingSession (config_of 0 10 8) (Loaded [example_snapshot])
              {| received := []; entry_at := Some 1%nat; exits_at := [1%nat] |} true) = [].
Proof.
  assert (H0 : 0 < OrderSize (config_of 0 10 8)) by reflexivity.
  assert (H1 : Forall (fun s => nonneg_levels (Asks s))
                      (feed_snapshots (Loaded [example_snapshot])))
    by (vm_compute; repeat constructor; discriminate).
  assert (H2 : Forall (fun s => total_qty (Asks s) < OrderSize (config_of 0 10 8))
                      (feed_snapshots (Loaded [example_snapshot])))
    by (vm_compute; repeat constructor).
  refine (conj H0 (conj H1 (conj H2 _))).
  exact (proj1 (session_without_liquidity (config_of 0 10 8) (Loaded [example_snapshot])
                  {| received := []; entry_at := Some 1%nat; exits_at := [1%nat] |} true
                  H0 H1 H2)).
Defined.
